(** * The REST trigger of qingcloudhx/contrib: a shallow embedding

    The development follows [trigger/rest/trigger.go]: the route table built
    by [Trigger.Initialize], the CORS preflight responder, and the closure
    returned by [newActionHandler] (request normalisation, body decoding by
    content type, handler invocation, reply writing).

    Go strings are byte strings, so they are [string]s of [ascii] bytes.
    Go maps are [gmap]s; a [range] over a map visits the entries in an
    unspecified order, which is made explicit wherever the loop body can
    observe it.  The library functions the trigger calls ([strings],
    [net/url], [encoding/json], [net/http], [httprouter]) are modelled in
    their own modules, each as far as the trigger depends on it. *)

From Stdlib Require Import ZArith NArith Ascii String List Permutation.
From stdpp Require Import base option list gmap strings fin_maps sorting pretty.

Set Warnings "-register-all".
Open Scope string_scope.

(** ** Errors and outcomes *)

(** The byte 0x22 (the double quote), and JSON text written with an
    apostrophe standing for each double quote. *)
Definition dq : ascii := ascii_of_nat 34.
Definition dquote : string := String dq EmptyString.

Fixpoint js (s : string) : string :=
  match s with
  | EmptyString => EmptyString
  | String c s' => String (if Ascii.eqb c "'" then dq else c) (js s')
  end.

(** Go [error] values.  [io.EOF] and [io.ErrUnexpectedEOF] are sentinel
    values compared by identity in the source; the others carry their text. *)
Inductive error : Type :=
| io_EOF
| io_ErrUnexpectedEOF
| SyntaxError (msg : string)
| EscapeError (frag : string)
| ErrorString (msg : string).

Definition Error (e : error) : string :=
  match e with
  | io_EOF => "EOF"
  | io_ErrUnexpectedEOF => "unexpected EOF"
  | SyntaxError msg => msg
  | EscapeError frag => "invalid URL escape " ++ dquote ++ frag ++ dquote
  | ErrorString msg => msg
  end.

(** A Go call that returns [(value, error)]. *)
Inductive result (A : Type) : Type :=
| Ok (a : A)
| Err (e : error).
Arguments Ok {A} a.
Arguments Err {A} e.

#[global] Instance result_ret : MRet result := fun _ a => Ok a.
#[global] Instance result_bind : MBind result := fun _ _ k r =>
  match r with
  | Ok a => k a
  | Err e => Err e
  end.

(** ** Package [strings] *)
Module Strings.

Fixpoint HasPrefix (s prefix : string) {struct prefix} : bool :=
  match prefix, s with
  | EmptyString, _ => true
  | String p prefix', String c s' =>
      if Ascii.eqb c p then HasPrefix s' prefix' else false
  | String _ _, EmptyString => false
  end.

(** [strings.Contains s substr]: [substr] occurs somewhere in [s]. *)
Fixpoint Contains (s substr : string) : bool :=
  if HasPrefix s substr then true
  else match s with
       | EmptyString => false
       | String _ s' => Contains s' substr
       end.

Definition upper (c : ascii) : ascii :=
  let n := N_of_ascii c in
  if ((97 <=? n) && (n <=? 122))%N then ascii_of_N (n - 32) else c.

Definition lower (c : ascii) : ascii :=
  let n := N_of_ascii c in
  if ((65 <=? n) && (n <=? 90))%N then ascii_of_N (n + 32) else c.

Fixpoint map_bytes (f : ascii -> ascii) (s : string) : string :=
  match s with
  | EmptyString => EmptyString
  | String c s' => String (f c) (map_bytes f s')
  end.

(** [strings.ToUpper], on the ASCII letters (an HTTP method is an ASCII
    token); bytes outside [a-z] are kept. *)
Definition ToUpper (s : string) : string := map_bytes upper s.
Definition ToLower (s : string) : string := map_bytes lower s.


Fixpoint Join (elems : list string) (sep : string) : string :=
  match elems with
  | [] => ""
  | [x] => x
  | x :: rest => x ++ sep ++ Join rest sep
  end.

(** [strings.Cut s sep] for a one-byte separator: the text before the
    first [sep], the text after it, and whether [sep] was found. *)
Fixpoint Cut (s : string) (sep : ascii) : string * string * bool :=
  match s with
  | EmptyString => ("", "", false)
  | String c s' =>
      if Ascii.eqb c sep then ("", s', true)
      else let '(before, after, found) := Cut s' sep in
           (String c before, after, found)
  end.

Fixpoint ContainsByte (s : string) (b : ascii) : bool :=
  match s with
  | EmptyString => false
  | String c s' => Ascii.eqb c b || ContainsByte s' b
  end.

End Strings.

(** ** Dynamically typed values

    The values a Go [interface{}] holds in this program: what
    [encoding/json] decodes to, what the trigger builds as request content,
    and what a handler returns as reply data. *)
Inductive any : Type :=
| VNil                          (* the nil interface *)
| VBool (b : bool)
| VInt (n : Z)                  (* int, int64 *)
| VFloat (lit : string)         (* float64, held by its JSON literal *)
| VStr (s : string)             (* string *)
| VBytes (b : string)           (* []byte *)
| VSlice (l : list any)         (* []interface{} *)
| VMap (m : gmap string any)    (* map[string]interface{} *)
| VOpaque.                      (* a value JSON cannot encode: chan, func *)

(** ** Package [encoding/json]

    The decoder is Go's scanner (scanner.go): a state machine stepped one
    byte at a time, with a stack of the enclosing arrays and objects.  Here
    the machine also builds the value, so one pass gives both the verdict of
    the scanner and the result of decoding into an [interface{}].
    Not modelled: the conversion of number literals to float64 (a number
    keeps its literal), the replacement of invalid UTF-8 by U+FFFD, and the
    nesting limit of recent Go versions. *)
Module Json.

Definition isSpace (c : ascii) : bool :=
  Strings.ContainsByte (String " " (String "009" (String "013" (String "010" ""))))
    c.

Definition isDigit (c : ascii) : bool :=
  let n := N_of_ascii c in ((48 <=? n) && (n <=? 57))%N.

Definition isDigit19 (c : ascii) : bool :=
  let n := N_of_ascii c in ((49 <=? n) && (n <=? 57))%N.

Definition hexval (c : ascii) : option N :=
  let n := N_of_ascii c in
  if ((48 <=? n) && (n <=? 57))%N then Some (n - 48)%N
  else if ((97 <=? n) && (n <=? 102))%N then Some (n - 87)%N
  else if ((65 <=? n) && (n <=? 70))%N then Some (n - 55)%N
  else None.

Definition isHex (c : ascii) : bool :=
  match hexval c with Some _ => true | None => false end.

Definition byte (n : N) : ascii := ascii_of_N (n mod 256).

(** [utf8.EncodeRune]. *)
Definition utf8 (r : N) : string :=
  (if r <? 128 then String (byte r) ""
   else if r <? 2048 then
     String (byte (192 + r / 64)) (String (byte (128 + r mod 64)) "")
   else if r <? 65536 then
     String (byte (224 + r / 4096))
       (String (byte (128 + (r / 64) mod 64)) (String (byte (128 + r mod 64)) ""))
   else
     String (byte (240 + r / 262144))
       (String (byte (128 + (r / 4096) mod 64))
          (String (byte (128 + (r / 64) mod 64))
             (String (byte (128 + r mod 64)) ""))))%N.

Definition hex4 (a b c d : ascii) : option N :=
  match hexval a, hexval b, hexval c, hexval d with
  | Some x, Some y, Some z, Some w => Some (((x * 16 + y) * 16 + z) * 16 + w)%N
  | _, _, _, _ => None
  end.

Definition replacementChar : N := 65533.

Definition isSurrogate (r : N) : bool := ((55296 <=? r) && (r <? 57344))%N.

(** [utf16.DecodeRune]. *)
Definition decodeSurrogates (r1 r2 : N) : N :=
  (if (55296 <=? r1) && (r1 <? 56320) && (56320 <=? r2) && (r2 <? 57344)
   then (r1 - 55296) * 1024 + (r2 - 56320) + 65536
   else replacementChar)%N.

(** [unquote] (decode.go) on the text between the quotes of a string
    literal the scanner has accepted: escapes are replaced, [\u] escapes
    become UTF-8, an unpaired surrogate becomes U+FFFD. *)
Fixpoint unquote (s : string) : string :=
  match s with
  | EmptyString => EmptyString
  | String c r =>
      if negb (Ascii.eqb c "\") then String c (unquote r)
      else match r with
           | EmptyString => EmptyString
           | String e r1 =>
               if Ascii.eqb e "u" then
                 match r1 with
                 | String h1 (String h2 (String h3 (String h4 r2))) =>
                     match hex4 h1 h2 h3 h4 with
                     | None => EmptyString
                     | Some rr =>
                         if isSurrogate rr then
                           match r2 with
                           | String b (String u (String g1 (String g2
                               (String g3 (String g4 r3))))) =>
                               match (if Ascii.eqb b "\" && Ascii.eqb u "u"
                                      then hex4 g1 g2 g3 g4 else None) with
                               | Some rr1 =>
                                   let dec := decodeSurrogates rr rr1 in
                                   if (dec =? replacementChar)%N
                                   then utf8 replacementChar ++ unquote r2
                                   else utf8 dec ++ unquote r3
                               | None => utf8 replacementChar ++ unquote r2
                               end
                           | _ => utf8 replacementChar ++ unquote r2
                           end
                         else utf8 rr ++ unquote r2
                     end
                 | _ => EmptyString
                 end
               else
                 let d := if Ascii.eqb e "b" then "008"%char
                          else if Ascii.eqb e "f" then "012"%char
                          else if Ascii.eqb e "n" then "010"%char
                          else if Ascii.eqb e "r" then "013"%char
                          else if Ascii.eqb e "t" then "009"%char
                          else e in
                 String d (unquote r1)
           end
  end.

Definition text (rev_raw : list ascii) : string :=
  string_of_list_ascii (rev rev_raw).

(** The states of a number literal ([stateNeg], [state0], [state1],
    [stateDot], [stateDot0], [stateE], [stateESign], [stateE0]). *)
Inductive numstate := NNeg | N0 | N1 | NDot | NDot0 | NE | NESign | NE0.

(** The states inside a string literal ([stateInString],
    [stateInStringEsc], [stateInStringEscU] and its successors, counted by
    the hex digits still due). *)
Inductive strstate := SPlain | SEsc | SEscU (due : nat).

(** What the scanner expects next.  A scalar under way carries the bytes
    read so far, most recent first. *)
Inductive pos : Type :=
| BeginValue
| BeginValueOrEmpty
| BeginStringOrEmpty
| BeginString
| AfterKey
| EndValue
| InString (key : bool) (raw : list ascii) (st : strstate)
| InNumber (raw : list ascii) (st : numstate)
| InLiteral (rest : string) (v : any).

(** The enclosing containers ([parseState]), with what they hold so far:
    an array with its elements (most recent first), an object with its
    members and the key whose value is due. *)
Inductive frame : Type :=
| FArr (acc : list any)
| FObj (m : gmap string any) (k : string).

Definition state : Type := pos * list frame.

Definition init : state := (BeginValue, []).

Inductive step_result : Type :=
| Continue (st : state)
| Done (v : any) (consumed : bool)
| Fail (msg : string).

Definition invalid (c : ascii) (context : string) : step_result :=
  Fail ("invalid character '" ++ String c "' " ++ context).

(** A value is complete ([stateEndValue]): it is the result at top level,
    an element or a member otherwise. *)
Definition endValue (v : any) (stack : list frame) : step_result :=
  match stack with
  | [] => Done v true
  | FArr acc :: up => Continue (EndValue, FArr (v :: acc) :: up)
  | FObj m k :: up => Continue (EndValue, FObj (<[k := v]> m) k :: up)
  end.

(** After a value inside a container. *)
Definition stepEnd (stack : list frame) (c : ascii) : step_result :=
  if isSpace c then Continue (EndValue, stack)
  else match stack with
       | [] => invalid c "after top-level value"
       | FArr acc :: up =>
           if Ascii.eqb c "," then Continue (BeginValue, stack)
           else if Ascii.eqb c "]" then endValue (VSlice (rev acc)) up
           else invalid c "after array element"
       | FObj m _ :: up =>
           if Ascii.eqb c "," then Continue (BeginString, stack)
           else if Ascii.eqb c "}" then endValue (VMap m) up
           else invalid c "after object key:value pair"
       end.

(** A number ends at the first byte that cannot continue it; that byte is
    then read as what follows a value. *)
Definition endNumber (raw : list ascii) (stack : list frame) (c : ascii)
  : step_result :=
  match endValue (VFloat (text raw)) stack with
  | Done v _ => Done v false
  | Continue (_, stack') => stepEnd stack' c
  | Fail msg => Fail msg
  end.

Definition stepNumber (raw : list ascii) (st : numstate) (stack : list frame)
    (c : ascii) : step_result :=
  let go st' := Continue (InNumber (c :: raw) st', stack) in
  let after0 :=
    if Ascii.eqb c "." then go NDot
    else if Ascii.eqb c "e" || Ascii.eqb c "E" then go NE
    else endNumber raw stack c in
  let exponent :=
    if isDigit c then go NE0
    else invalid c "in exponent of numeric literal" in
  match st with
  | NNeg => if Ascii.eqb c "0" then go N0
            else if isDigit19 c then go N1
            else invalid c "in numeric literal"
  | N1 => if isDigit c then go N1 else after0
  | N0 => after0
  | NDot => if isDigit c then go NDot0
            else invalid c "after decimal point in numeric literal"
  | NDot0 => if isDigit c then go NDot0
             else if Ascii.eqb c "e" || Ascii.eqb c "E" then go NE
             else endNumber raw stack c
  | NE => if Ascii.eqb c "+" || Ascii.eqb c "-" then go NESign else exponent
  | NESign => exponent
  | NE0 => if isDigit c then go NE0 else endNumber raw stack c
  end.

Definition stepString (key : bool) (raw : list ascii) (st : strstate)
    (stack : list frame) (c : ascii) : step_result :=
  let go st' := Continue (InString key (c :: raw) st', stack) in
  match st with
  | SPlain =>
      if Ascii.eqb c dq then
        let s := unquote (text raw) in
        if key then
          match stack with
          | FObj m _ :: up => Continue (AfterKey, FObj m s :: up)
          | _ => Fail "object key outside an object"
          end
        else endValue (VStr s) stack
      else if Ascii.eqb c "\" then go SEsc
      else if (N_of_ascii c <? 32)%N then invalid c "in string literal"
      else go SPlain
  | SEsc =>
      if Ascii.eqb c "u" then go (SEscU 4)
      else if Ascii.eqb c dq || Strings.ContainsByte "\/bfnrt" c then go SPlain
      else invalid c "in string escape code"
  | SEscU due =>
      if isHex c then
        match due with
        | S (S due') => go (SEscU (S due'))
        | _ => go SPlain
        end
      else invalid c "in \u hexadecimal character escape"
  end.

(** [stateBeginValue]. *)
Definition stepBegin (stack : list frame) (c : ascii) : step_result :=
  if Ascii.eqb c "{" then Continue (BeginStringOrEmpty, FObj ∅ "" :: stack)
  else if Ascii.eqb c "[" then Continue (BeginValueOrEmpty, FArr [] :: stack)
  else if Ascii.eqb c dq then Continue (InString false [] SPlain, stack)
  else if Ascii.eqb c "-" then Continue (InNumber [c] NNeg, stack)
  else if Ascii.eqb c "0" then Continue (InNumber [c] N0, stack)
  else if isDigit19 c then Continue (InNumber [c] N1, stack)
  else if Ascii.eqb c "t" then Continue (InLiteral "rue" (VBool true), stack)
  else if Ascii.eqb c "f" then Continue (InLiteral "alse" (VBool false), stack)
  else if Ascii.eqb c "n" then Continue (InLiteral "ull" VNil, stack)
  else invalid c "looking for beginning of value".

Definition stepKey (stack : list frame) (c : ascii) : step_result :=
  if Ascii.eqb c dq then Continue (InString true [] SPlain, stack)
  else invalid c "looking for beginning of object key string".

(** One byte through the scanner ([scanner.step]). *)
Definition step (st : state) (c : ascii) : step_result :=
  let '(p, stack) := st in
  match p with
  | BeginValue =>
      if isSpace c then Continue st else stepBegin stack c
  | BeginValueOrEmpty =>
      if isSpace c then Continue st
      else if Ascii.eqb c "]" then
        match stack with
        | FArr acc :: up => endValue (VSlice (rev acc)) up
        | _ => invalid c "looking for beginning of value"
        end
      else stepBegin stack c
  | BeginStringOrEmpty =>
      if isSpace c then Continue st
      else if Ascii.eqb c "}" then
        match stack with
        | FObj m _ :: up => endValue (VMap m) up
        | _ => invalid c "looking for beginning of object key string"
        end
      else stepKey stack c
  | BeginString =>
      if isSpace c then Continue st else stepKey stack c
  | AfterKey =>
      if isSpace c then Continue st
      else if Ascii.eqb c ":" then Continue (BeginValue, stack)
      else invalid c "after object key"
  | EndValue => stepEnd stack c
  | InString key raw sst => stepString key raw sst stack c
  | InNumber raw nst => stepNumber raw nst stack c
  | InLiteral rest v =>
      match rest with
      | String e rest' =>
          if Ascii.eqb c e then
            match rest' with
            | EmptyString => endValue v stack
            | _ => Continue (InLiteral rest' v, stack)
            end
          else invalid c "in literal"
      | EmptyString => invalid c "in literal"
      end
  end.

Inductive run_result : Type :=
| Finished (v : any) (rest : string)
| Failed (msg : string)
| AtEnd (st : state).

(** Feed the input to the scanner until the first value is complete. *)
Fixpoint run (st : state) (s : string) : run_result :=
  match s with
  | EmptyString => AtEnd st
  | String c s' =>
      match step st c with
      | Continue st' => run st' s'
      | Done v consumed => Finished v (if consumed then s' else s)
      | Fail msg => Failed msg
      end
  end.

(** [scanner.eof]: at the end of the input a number at top level is
    complete; any other unfinished state is not. *)
Definition eof (st : state) : option any :=
  match st with
  | (InNumber raw (N0 | N1 | NDot0 | NE0), []) => Some (VFloat (text raw))
  | _ => None
  end.

Definition untouched (st : state) : bool :=
  match st with
  | (BeginValue, []) => true
  | _ => false
  end.

Fixpoint allSpace (s : string) : bool :=
  match s with
  | EmptyString => true
  | String c s' => isSpace c && allSpace s'
  end.

(** [json.NewDecoder(r).Decode(&v)] with [v] an [interface{}], first call,
    on a reader that yields [s] and then the end of the stream: the first
    value of the stream is decoded and what follows it is left unread;
    [io.EOF] when the stream holds only white space, [io.ErrUnexpectedEOF]
    when it ends inside a value (stream.go, [readValue]). *)
Definition Decode (s : string) : result any :=
  match run init s with
  | Finished v _ => Ok v
  | Failed msg => Err (SyntaxError msg)
  | AtEnd st =>
      match eof st with
      | Some v => Ok v
      | None => if untouched st then Err io_EOF else Err io_ErrUnexpectedEOF
      end
  end.

(** [json.Unmarshal(data, &v)] with [v] an [interface{}]: the whole input
    must be one value ([checkValid]). *)
Definition Unmarshal (s : string) : result any :=
  match run init s with
  | Finished v rest =>
      if allSpace rest then Ok v
      else Err (SyntaxError "invalid character after top-level value")
  | Failed msg => Err (SyntaxError msg)
  | AtEnd st =>
      match eof st with
      | Some v => Ok v
      | None => Err (SyntaxError "unexpected end of JSON input")
      end
  end.

(** *** Encoding *)

Definition hexdigit (n : N) : ascii :=
  (if n <? 10 then ascii_of_N (48 + n) else ascii_of_N (87 + n))%N.

(** One byte of a string on output ([encodeState.string] with HTML
    escaping, the default of [Marshal] and of an [Encoder]). *)
Definition quoteByte (c : ascii) : string :=
  let n := N_of_ascii c in
  if Ascii.eqb c dq || Ascii.eqb c "\" then String "\" (String c "")
  else if Ascii.eqb c "010" then "\n"
  else if Ascii.eqb c "013" then "\r"
  else if Ascii.eqb c "009" then "\t"
  else if (n <? 32)%N || Strings.ContainsByte "<>&" c then
    "\u00" ++ String (hexdigit (n / 16)) (String (hexdigit (n mod 16)) "")
  else String c "".

Fixpoint quoteBytes (s : string) : string :=
  match s with
  | EmptyString => EmptyString
  | String c s' => quoteByte c ++ quoteBytes s'
  end.

Definition quote (s : string) : string := dquote ++ quoteBytes s ++ dquote.

Definition b64digit (n : N) : ascii :=
  (if n <? 26 then ascii_of_N (65 + n)
   else if n <? 52 then ascii_of_N (71 + n)
   else if n <? 62 then ascii_of_N (n - 4)
   else if n =? 62 then "+"%char else "/"%char)%N.

(** [base64.StdEncoding], which is how a [[]byte] is encoded. *)
Fixpoint base64 (s : string) : string :=
  match s with
  | EmptyString => EmptyString
  | String a EmptyString =>
      let x := N_of_ascii a in
      String (b64digit (x / 4)) (String (b64digit ((x mod 4) * 16)) "==")
  | String a (String b EmptyString) =>
      let x := N_of_ascii a in
      let y := N_of_ascii b in
      String (b64digit (x / 4))
        (String (b64digit ((x mod 4) * 16 + y / 16))
           (String (b64digit ((y mod 16) * 4)) "="))
  | String a (String b (String c s')) =>
      let x := N_of_ascii a in
      let y := N_of_ascii b in
      let z := N_of_ascii c in
      String (b64digit (x / 4))
        (String (b64digit ((x mod 4) * 16 + y / 16))
           (String (b64digit ((y mod 16) * 4 + z / 64))
              (String (b64digit (z mod 64)) (base64 s'))))
  end%N.

(** Object members are written in the byte order of their keys. *)
Definition member_le (x y : string * string) : Prop :=
  bool_decide (String.leb x.1 y.1 = true).

#[global] Instance member_le_dec : RelDecision member_le.
Proof. intros x y. unfold member_le. apply _. Defined.

Definition member (kv : string * string) : string :=
  quote kv.1 ++ ":" ++ kv.2.

(** [json.Marshal]. *)
Fixpoint Marshal (v : any) : result string :=
  match v with
  | VNil => Ok "null"
  | VBool b => Ok (if b then "true" else "false")
  | VInt n => Ok (pretty n)
  | VFloat lit => Ok lit
  | VStr s => Ok (quote s)
  | VBytes b => Ok (dquote ++ base64 b ++ dquote)
  | VSlice l =>
      items ← (fix elems (l : list any) : result (list string) :=
                 match l with
                 | [] => Ok []
                 | x :: l' => e ← Marshal x; es ← elems l'; Ok (e :: es)
                 end) l;
      Ok ("[" ++ Strings.Join items "," ++ "]")
  | VMap m =>
      members ← map_fold
                  (fun k x acc => es ← acc; e ← Marshal x; Ok ((k, e) :: es))
                  (Ok []) m;
      Ok ("{" ++ Strings.Join (member <$> merge_sort member_le members) ","
              ++ "}")
  | VOpaque => Err (ErrorString "json: unsupported type")
  end.

End Json.

(** ** Package [net/url] *)
Module Url.

Definition unhex (c : ascii) : option N :=
  let n := N_of_ascii c in
  if ((48 <=? n) && (n <=? 57))%N then Some (n - 48)%N
  else if ((97 <=? n) && (n <=? 102))%N then Some (n - 87)%N
  else if ((65 <=? n) && (n <=? 70))%N then Some (n - 55)%N
  else None.

Fixpoint prefix (n : nat) (s : string) : string :=
  match n, s with
  | S n', String c s' => String c (prefix n' s')
  | _, _ => EmptyString
  end.

(** [url.QueryUnescape]: [%XX] becomes the byte XX, [+] a space; a [%] not
    followed by two hex digits is an [EscapeError] on the offending text. *)
Fixpoint QueryUnescape (s : string) : result string :=
  match s with
  | EmptyString => Ok EmptyString
  | String c r =>
      if Ascii.eqb c "%" then
        match r with
        | String h1 (String h2 r') =>
            match unhex h1, unhex h2 with
            | Some a, Some b =>
                t ← QueryUnescape r'; Ok (String (ascii_of_N (a * 16 + b)) t)
            | _, _ => Err (EscapeError (prefix 3 s))
            end
        | _ => Err (EscapeError (prefix 3 s))
        end
      else
        t ← QueryUnescape r;
        Ok (String (if Ascii.eqb c "+" then " "%char else c) t)
  end.

(** [strings.Split] for a one-byte separator. *)
Fixpoint Split (s : string) (sep : ascii) : list string :=
  match s with
  | EmptyString => [EmptyString]
  | String c s' =>
      if Ascii.eqb c sep then EmptyString :: Split s' sep
      else match Split s' sep with
           | [] => [String c EmptyString]
           | x :: xs => String c x :: xs
           end
  end.

(** [url.Values]. *)
Abbreviation Values := (gmap string (list string)).

(** [m[key] = append(m[key], value)] *)
Definition Add (m : Values) (key value : string) : Values :=
  <[key := (default [] (m !! key) ++ [value])%list]> m.

(** What one [&]-separated piece of a query contributes: nothing when it is
    empty, an error when it holds a semicolon or a bad escape, a key and a
    value otherwise (the text before and after its first [=]). *)
Inductive piece : Type :=
| Blank
| Semicolon
| Bad (e : error)
| Pair (key value : string).

Definition parsePiece (p : string) : piece :=
  if Strings.ContainsByte p ";" then Semicolon
  else if String.eqb p "" then Blank
  else
    let '(key, value, _) := Strings.Cut p "=" in
    match QueryUnescape key with
    | Err e => Bad e
    | Ok k =>
        match QueryUnescape value with
        | Err e => Bad e
        | Ok v => Pair k v
        end
    end.

(** One turn of the loop of [parseQuery]: a semicolon error replaces the
    error held, an escape error is kept only when it is the first error. *)
Definition parseStep (acc : Values * option error) (p : string)
  : Values * option error :=
  match parsePiece p with
  | Blank => acc
  | Semicolon =>
      (acc.1, Some (ErrorString "invalid semicolon separator in query"))
  | Bad e => (acc.1, match acc.2 with None => Some e | Some e0 => Some e0 end)
  | Pair k v => (Add acc.1 k v, acc.2)
  end.

(** [url.ParseQuery] (as of Go 1.17): the map of all well-formed pairs, and
    the error found, if any. *)
Definition ParseQuery (query : string) : Values * option error :=
  foldl parseStep (∅, None) (Split query "&").

End Url.

(** ** Package [net/http] *)
Module Http.

Definition StatusOK : Z := 200.
Definition StatusBadRequest : Z := 400.
Definition StatusNotFound : Z := 404.

(** [Header.Get]: the first value under the key, or the empty string. *)
Definition Get (h : gmap string (list string)) (key : string) : string :=
  match h !! key with
  | Some (v :: _) => v
  | _ => ""
  end.

(** A request body as an [io.Reader]: it yields its bytes and then the end
    of the stream, or its first read fails. *)
Inductive body : Type :=
| Bytes (data : string)
| Broken (msg : string).

(** [multipart.FileHeader], with what [Open] and reading the file to its
    end deliver. *)
Record FileHeader : Type := {
  Filename : string;
  ContentType : string;     (* Header.Get("Content-Type") of the part *)
  Size : Z;
  Data : result string;
}.

(** [multipart.Form]. *)
Record Form : Type := {
  Value : gmap string (list string);
  File : gmap string (list FileHeader);
}.

(** [http.Request], as far as the trigger reads it.  Package
    [mime/multipart] is not modelled: [MultipartForm] is what
    [r.ParseMultipartForm] makes of this request (a form, or the error it
    returns, for example when the content type is not multipart or names no
    boundary). *)
Record Request : Type := {
  Method : string;
  Path : string;            (* r.URL.Path *)
  RawQuery : string;        (* r.URL.RawQuery *)
  Header : gmap string (list string);
  Body : body;
  MultipartForm : result Form;
}.

(** [r.URL.Query()] parses the raw query and drops the error. *)
Definition Query (r : Request) : Url.Values := (Url.ParseQuery (RawQuery r)).1.

(** [http.ResponseWriter]: the response headers, the status once it is
    written, and the body written so far. *)
Record ResponseWriter : Type := {
  header : gmap string string;
  status : option Z;
  written : string;
}.

Definition fresh : ResponseWriter :=
  {| header := ∅; status := None; written := "" |}.

(** [w.Header().Set(key, value)] *)
Definition Set_ (key value : string) (w : ResponseWriter) : ResponseWriter :=
  {| header := <[key := value]> (header w);
     status := status w; written := written w |}.

(** [w.WriteHeader(code)]: the first status written stands. *)
Definition WriteHeader (code : Z) (w : ResponseWriter) : ResponseWriter :=
  {| header := header w;
     status := match status w with Some c => Some c | None => Some code end;
     written := written w |}.

(** [w.Write(b)]: writes the status 200 first when none was written. *)
Definition Write (b : string) (w : ResponseWriter) : ResponseWriter :=
  {| header := header w;
     status := match status w with Some c => Some c | None => Some StatusOK end;
     written := written w ++ b |}.

(** [http.Error(w, error, code)]: a plain-text reply, the message on a line
    of its own ([fmt.Fprintln]). *)
Definition Error (w : ResponseWriter) (error : string) (code : Z)
  : ResponseWriter :=
  Write (error ++ String "010" "")
    (WriteHeader code
       (Set_ "X-Content-Type-Options" "nosniff"
          (Set_ "Content-Type" "text/plain; charset=utf-8" w))).

(** [json.NewEncoder(w).Encode(v)]: the encoding of [v] followed by a
    newline; nothing is written when [v] cannot be encoded. *)
Definition Encode (v : any) (w : ResponseWriter) : ResponseWriter * option error :=
  match Json.Marshal v with
  | Ok b => (Write (b ++ String "010" "") w, None)
  | Err e => (w, Some e)
  end.

End Http.

(** ** Package [httprouter]

    The route table: one entry per registration, in registration order.
    [Handle] panics when the path does not begin with a slash and when the
    method and path are registered already.  Not modelled: the panics on
    conflicting wildcard routes, redirects of trailing slashes, and the
    replies to unknown methods. *)
Module Router.

Record Param : Type := { Key : string; Value : string }.

(** A call that returns or panics. *)
Inductive panics (A : Type) : Type :=
| Run (a : A)
| Panic (msg : string).
Arguments Run {A} a.
Arguments Panic {A} msg.

Section Routes.
Context {H : Type}.

Record Route : Type := { method : string; pattern : string; handle : H }.

Definition registered (rt : list Route) (m p : string) : bool :=
  existsb (fun r => String.eqb (method r) m && String.eqb (pattern r) p) rt.

(** [router.Handle(method, path, handle)] *)
Definition Handle (m p : string) (h : H) (rt : list Route)
  : panics (list Route) :=
  if negb (Strings.HasPrefix p "/") then
    Panic ("path must begin with '/' in path '" ++ p ++ "'")
  else if registered rt m p then
    Panic ("a handle is already registered for path '" ++ p ++ "'")
  else Run (rt ++ [{| method := m; pattern := p; handle := h |}])%list.

(** [router.OPTIONS(path, handle)] *)
Definition OPTIONS (p : string) (h : H) (rt : list Route)
  : panics (list Route) :=
  Handle "OPTIONS" p h rt.

(** A pattern against a request path, segment by segment: [:name] takes
    one non-empty segment, [*name] takes what is left. *)
Fixpoint matchSegments (pat path : list string) : option (list Param) :=
  match pat, path with
  | [], [] => Some []
  | p :: pat', s :: path' =>
      match p with
      | String c name =>
          if Ascii.eqb c ":" then
            if String.eqb s "" then None
            else ps ← matchSegments pat' path';
                 Some ({| Key := name; Value := s |} :: ps)
          else if Ascii.eqb c "*" then
            Some [{| Key := name;
                     Value := "/" ++ Strings.Join (s :: path') "/" |}]
          else if String.eqb p s then matchSegments pat' path' else None
      | EmptyString =>
          if String.eqb p s then matchSegments pat' path' else None
      end
  | _, _ => None
  end.

Definition matchPath (pat path : string) : option (list Param) :=
  matchSegments (Url.Split pat "/") (Url.Split path "/").

(** [router.Lookup(method, path)] *)
Fixpoint Lookup (rt : list Route) (m path : string) : option (H * list Param) :=
  match rt with
  | [] => None
  | r :: rt' =>
      if String.eqb (method r) m then
        match matchPath (pattern r) path with
        | Some ps => Some (handle r, ps)
        | None => Lookup rt' m path
        end
      else Lookup rt' m path
  end.

End Routes.
Arguments Route H : clear implicits.

End Router.

(** ** Packages [function/string] and [function/utils]

    The expression functions whose library calls work on bytes:
    [trimSuffix] and [encodeString].  The [Eval] of a function is given
    its parameters as a slice of [interface{}] and asserts each one to be a
    string, which panics on a missing parameter and on one of another
    type; the error it returns is always nil. *)
Module Functions.

(** [params[i].(string)] *)
Definition stringParam (params : list any) (i : nat) : Router.panics string :=
  match params !! i with
  | Some (VStr s) => Router.Run s
  | Some _ =>
      Router.Panic "interface conversion: interface {} is not string"
  | None => Router.Panic "index out of range"
  end.

(** [strings.HasSuffix]: [len(s) >= len(suffix) &&
    s[len(s)-len(suffix):] == suffix] *)
Definition HasSuffix (s suffix : string) : bool :=
  (String.length suffix <=? String.length s)%nat &&
  String.eqb
    (String.substring (String.length s - String.length suffix)
       (String.length suffix) s)
    suffix.

(** [strings.TrimSuffix] *)
Definition TrimSuffix (s suffix : string) : string :=
  if HasSuffix s suffix
  then String.substring 0 (String.length s - String.length suffix) s
  else s.

(** [fnTrimSuffix.Eval] *)
Definition fnTrimSuffix_Eval (params : list any) : Router.panics any :=
  match stringParam params 0 with
  | Router.Panic msg => Router.Panic msg
  | Router.Run s =>
      match stringParam params 1 with
      | Router.Panic msg => Router.Panic msg
      | Router.Run suffix => Router.Run (VStr (TrimSuffix s suffix))
      end
  end.

(** [fnEncodeString.Eval]: [base64.StdEncoding.EncodeToString] of the bytes
    of the string. *)
Definition fnEncodeString_Eval (params : list any) : Router.panics any :=
  match stringParam params 0 with
  | Router.Panic msg => Router.Panic msg
  | Router.Run s => Router.Run (VStr (Json.base64 s))
  end.

(** The value of a digit of the base64 alphabet, and the bytes a padded
    base64 text stands for: the inverse of the encoding, by which the
    encoding is shown to lose nothing. *)
Definition b64value (c : ascii) : N :=
  let n := N_of_ascii c in
  (if (65 <=? n) && (n <=? 90) then n - 65
   else if (97 <=? n) && (n <=? 122) then n - 71
   else if (48 <=? n) && (n <=? 57) then n + 4
   else if n =? 43 then 62
   else 63)%N.

Fixpoint unbase64 (e : string) : string :=
  match e with
  | String c1 (String c2 (String c3 (String c4 e'))) =>
      let d1 := b64value c1 in
      let d2 := b64value c2 in
      let d3 := b64value c3 in
      let d4 := b64value c4 in
      let x := ascii_of_N (d1 * 4 + d2 / 16) in
      let y := ascii_of_N ((d2 mod 16) * 16 + d3 / 4) in
      let z := ascii_of_N ((d3 mod 4) * 64 + d4) in
      if Ascii.eqb c3 "=" then String x EmptyString
      else if Ascii.eqb c4 "=" then String x (String y EmptyString)
      else String x (String y (String z (unbase64 e')))
  | _ => EmptyString
  end%N.

End Functions.

(** ** The REST trigger ([trigger/rest/trigger.go]) *)
Module Rest.

(** The canonical request handed to a handler ([Output]). *)
Record Output : Type := {
  Method : string;
  PathParams : gmap string string;
  QueryParams : gmap string string;
  Headers : gmap string string;
  Content : any;
}.

(** What a handler's result is mapped to ([Reply]): [Code] is 0 when unset,
    [Data] is the nil interface when absent. *)
Record Reply : Type := {
  Code : Z;
  Data : any;
}.

Module HandlerSettings.
Record t : Type := { Method : string; Path : string }.
End HandlerSettings.

(** A registered handler ([trigger.Handler]): [Settings] is what
    [metadata.MapToStruct] makes of its settings, [Handle] its business
    logic. *)
Record Handler : Type := {
  Settings : result HandlerSettings.t;
  Handle : Output -> result (gmap string any);
}.

(** What the router holds: the one preflight responder, or the closure
    [newActionHandler] returned for a method and a handler. *)
Inductive handle : Type :=
| Preflight
| Action (method : string) (handler : Handler).

(** What serving one request did: the response, the canonical requests
    handed to handlers, and the panic that ended it, if any. *)
Record served : Type := {
  resp : Http.ResponseWriter;
  calls : list Output;
  panicked : option string;
}.

(** *** Loops over maps

    [for key, value := range m { dst[key] = f(value) }] over the entries of
    [m] in the order the runtime picks. *)
Definition rangeAssign {A B : Type} (f : A -> B) (entries : list (string * A))
    (dst : gmap string B) : gmap string B :=
  foldl (fun d kv => <[kv.1 := f kv.2]> d) dst entries.

Definition joinValues (value : list string) : string := Strings.Join value ",".

(** Lines 187-194: [content[key] = val[0]] for every key of the parsed
    form; [None] is the panic of indexing an empty slice. *)
Definition formContent (entries : list (string * list string))
  : option (gmap string any) :=
  foldl (fun acc kv =>
           content ← acc; v ← head kv.2; Some (<[kv.1 := VStr v]> content))
        (Some ∅) entries.

(** [getFileDetails] *)
Definition getFileDetails (key : string) (header : Http.FileHeader)
  : result any :=
  b ← Http.Data header;
  Ok (VMap (<["key" := VStr key]>
           (<["fileName" := VStr (Http.Filename header)]>
           (<["fileType" := VStr (Http.ContentType header)]>
           (<["size" := VInt (Http.Size header)]>
           (<["file" := VBytes b]> ∅)))))).

(** Lines 225-235: the files under one key, appended in order. *)
Fixpoint appendFiles (key : string) (fh : list Http.FileHeader)
    (files : list any) : result (list any) :=
  match fh with
  | [] => Ok files
  | header :: fh' =>
      fileDetails ← getFileDetails key header;
      appendFiles key fh' (files ++ [fileDetails])%list
  end.

(** Lines 224-236: [for key, fh := range r.MultipartForm.File], over the
    entries in the order the runtime picks. *)
Fixpoint rangeFiles (entries : list (string * list Http.FileHeader))
    (files : list any) : result (list any) :=
  match entries with
  | [] => Ok files
  | (key, fh) :: entries' =>
      files' ← appendFiles key fh files; rangeFiles entries' files'
  end.

(** The order in which the runtime ranges over a map is not specified and
    may differ from one loop to the next: a [ranger] stands for the orders
    picked during one run, and is [lawful] when it visits every entry
    once. *)
Definition ranger : Type := forall A : Type, gmap string A -> list (string * A).

Definition lawful (pick : ranger) : Prop :=
  forall (A : Type) (m : gmap string A), pick A m ≡ₚ map_to_list m.

(** The order of the entries of the map, and its reverse. *)
Definition ascending : ranger := fun A m => map_to_list m.
Definition descending : ranger := fun A m => rev (map_to_list m).

(** *** Body decoding (lines 167-254) *)

Inductive branch : Type := FormBranch | JsonBranch | MultipartBranch | RawBranch.

(** The [switch contentType] and the test in its default case. *)
Definition contentBranch (contentType : string) : branch :=
  if String.eqb contentType "application/x-www-form-urlencoded" then FormBranch
  else if String.eqb contentType "application/json" then JsonBranch
  else if Strings.Contains contentType "multipart/form-data" then MultipartBranch
  else RawBranch.

(** The outcome of decoding: the content, an error answered with a 400, or
    a panic. *)
Inductive decoded : Type :=
| Decoded (content : any)
| Rejected (e : error)
| Crashed (msg : string).

Definition decodeForm (pick : ranger) (body : Http.body) : decoded :=
  match body with
  | Http.Broken msg => Rejected (ErrorString msg)
  | Http.Bytes s =>
      match Url.ParseQuery s with
      | (_, Some e) => Rejected e
      | (m, None) =>
          match formContent (pick _ m) with
          | Some content => Decoded (VMap content)
          | None => Crashed "index out of range"
          end
      end
  end.

Definition decodeJson (body : Http.body) : decoded :=
  match body with
  | Http.Broken msg => Rejected (ErrorString msg)
  | Http.Bytes s =>
      match Json.Decode s with
      | Ok content => Decoded content
      | Err io_EOF => Decoded VNil
      | Err e => Rejected e
      end
  end.

(** Lines 239-242: the content of a multipart request. *)
Definition multipartContent (files : list any) : any :=
  VMap (<["body" := VNil]> (<["files" := VSlice files]> ∅)).

Definition decodeMultipart (pick : ranger) (form : result Http.Form)
  : decoded :=
  match form with
  | Err e => Rejected e
  | Ok form =>
      match rangeFiles (pick _ (Http.File form)) [] with
      | Err e => Rejected e
      | Ok files => Decoded (multipartContent files)
      end
  end.

Definition decodeRaw (body : Http.body) : decoded :=
  match body with
  | Http.Broken msg => Rejected (ErrorString msg)
  | Http.Bytes b => Decoded (VStr b)
  end.

Definition decodeContent (pick : ranger) (r : Http.Request) : decoded :=
  match contentBranch (Http.Get (Http.Header r) "Content-Type") with
  | FormBranch => decodeForm pick (Http.Body r)
  | JsonBranch => decodeJson (Http.Body r)
  | MultipartBranch => decodeMultipart pick (Http.MultipartForm r)
  | RawBranch => decodeRaw (Http.Body r)
  end.

(** *** Reply writing (lines 271-309) *)

Definition writeReply (reply : Reply) (w : Http.ResponseWriter)
  : Http.ResponseWriter :=
  match Data reply with
  | VNil =>
      if (Code reply >? 0)%Z then Http.WriteHeader (Code reply) w
      else Http.WriteHeader Http.StatusOK w
  | data =>
      let code := if (Code reply =? 0)%Z then 200%Z else Code reply in
      match data with
      | VStr t =>
          let w :=
            match Json.Unmarshal t with
            | Err _ => Http.Set_ "Content-Type" "text/plain; charset=UTF-8" w
            | Ok _ => Http.Set_ "Content-Type" "application/json; charset=UTF-8" w
            end in
          Http.Write t (Http.WriteHeader code w)
      | _ =>
          let w := Http.Set_ "Content-Type" "application/json; charset=UTF-8" w in
          (Http.Encode data (Http.WriteHeader code w)).1
      end
  end.

(** Modelled from the spec: [Reply.FromMap], whose source (the metadata
    file of the trigger) is missing, copies a [code] field (default 0,
    meaning unset) and a [data] field (may be absent) from the result
    mapping of the handler.  The trigger allows for it to fail; here it
    fails on a [code] that is not an integer. *)
Definition replyFromMap (values : gmap string any) : result Reply :=
  let data := default VNil (values !! "data") in
  match values !! "code" with
  | None | Some VNil => Ok {| Code := 0; Data := data |}
  | Some (VInt n) => Ok {| Code := n; Data := data |}
  | Some _ => Err (ErrorString "unable to coerce code to int")
  end.

(** Lines 147-165 and the assignments to [out.Content]: the [Output] built
    for a request, given its decoded content. *)
Definition output (method : string) (pick : ranger) (r : Http.Request)
    (ps : list Router.Param) (content : any) : Output :=
  {| Method := method;
     PathParams :=
       foldl (fun m param => <[Router.Key param := Router.Value param]> m)
             ∅ ps;
     QueryParams := rangeAssign joinValues (pick _ (Http.Query r)) ∅;
     Headers := rangeAssign joinValues (pick _ (Http.Header r)) ∅;
     Content := content |}.

Section Trigger.

(** Package [trigger/rest/cors] and [Reply.FromMap] belong to the
    repository but their sources are not at hand; they are parameters.
    [corsActual] are the headers [WriteCorsActualRequestHeaders] sets,
    [corsPreflight] those [HandlePreflight] sets for a request. *)
Variable corsActual : list (string * string).
Variable corsPreflight : Http.Request -> list (string * string).
Variable FromMap : gmap string any -> result Reply.

Definition setHeaders (hs : list (string * string)) (w : Http.ResponseWriter)
  : Http.ResponseWriter :=
  foldl (fun w kv => Http.Set_ kv.1 kv.2 w) w hs.

Definition WriteCorsActualRequestHeaders (w : Http.ResponseWriter)
  : Http.ResponseWriter :=
  setHeaders corsActual w.

(** Modelled from the spec: [cors.HandlePreflight], whose source is missing,
    writes only headers and a success status, with an empty body. *)
Definition HandlePreflight (w : Http.ResponseWriter) (r : Http.Request)
  : Http.ResponseWriter :=
  Http.WriteHeader Http.StatusOK (setHeaders (corsPreflight r) w).

(** [PreflightHandler.handleCorsPreflight] *)
Definition handleCorsPreflight (w : Http.ResponseWriter) (r : Http.Request)
    (_ : list Router.Param) : served :=
  {| resp := HandlePreflight w r; calls := []; panicked := None |}.

Definition badRequest (w : Http.ResponseWriter) (e : error)
  : Http.ResponseWriter :=
  Http.Error w (Error e) Http.StatusBadRequest.

(** The closure returned by [newActionHandler(rt, method, handler)]. *)
Definition newActionHandler (method : string) (handler : Handler)
    (pick : ranger) (w : Http.ResponseWriter) (r : Http.Request)
    (ps : list Router.Param) : served :=
  let w := WriteCorsActualRequestHeaders w in
  let out := output method pick r ps in
  match decodeContent pick r with
  | Crashed msg => {| resp := w; calls := []; panicked := Some msg |}
  | Rejected e => {| resp := badRequest w e; calls := []; panicked := None |}
  | Decoded content =>
      let called := [out content] in
      match Handle handler (out content) with
      | Err e => {| resp := badRequest w e; calls := called; panicked := None |}
      | Ok results =>
          match FromMap results with
          | Err e =>
              {| resp := badRequest w e; calls := called; panicked := None |}
          | Ok reply =>
              {| resp := writeReply reply w; calls := called; panicked := None |}
          end
      end
  end.

(** *** Route registration ([Trigger.Initialize], lines 67-92) *)

Fixpoint register (handlers : list Handler) (pathMap : gmap string string)
    (router : list (Router.Route handle))
  : Router.panics (result (list (Router.Route handle))) :=
  match handlers with
  | [] => Router.Run (Ok router)
  | handler :: handlers' =>
      match Settings handler with
      | Err e => Router.Run (Err e)
      | Ok s =>
          let method := HandlerSettings.Method s in
          let path := HandlerSettings.Path s in
          let preflight :=
            match pathMap !! path with
            | None =>
                match Router.OPTIONS path Preflight router with
                | Router.Run router' =>
                    Router.Run (<[path := path]> pathMap, router')
                | Router.Panic msg => Router.Panic msg
                end
            | Some _ => Router.Run (pathMap, router)
            end in
          match preflight with
          | Router.Panic msg => Router.Panic msg
          | Router.Run (pathMap', router') =>
              match Router.Handle method path
                      (Action (Strings.ToUpper method) handler) router' with
              | Router.Panic msg => Router.Panic msg
              | Router.Run router'' => register handlers' pathMap' router''
              end
          end
      end
  end.

(** The router [Initialize] builds from the handlers of the trigger. *)
Definition Initialize (handlers : list Handler)
  : Router.panics (result (list (Router.Route handle))) :=
  register handlers ∅ [].

Definition runHandle (h : handle) (pick : ranger) (w : Http.ResponseWriter) (r : Http.Request) (ps : list Router.Param)
  : served :=
  match h with
  | Preflight => handleCorsPreflight w r ps
  | Action method handler => newActionHandler method handler pick w r ps
  end.

(** [router.ServeHTTP]: the handle registered for the method and path of
    the request runs; with none, the reply is a 404. *)
Definition ServeHTTP (router : list (Router.Route handle)) (pick : ranger)
    (r : Http.Request) : served :=
  match Router.Lookup router (Http.Method r) (Http.Path r) with
  | Some (h, ps) => runHandle h pick Http.fresh r ps
  | None =>
      {| resp := Http.Error Http.fresh "404 page not found" Http.StatusNotFound;
         calls := []; panicked := None |}
  end.

End Trigger.

(** * Notions and sample data for the properties

    The predicates and functions the statements are written with, and the
    requests, replies and handlers the statements are tried on. *)

(** Nothing was written yet: no status, no body. *)
Definition unwritten (w : Http.ResponseWriter) : Prop :=
  Http.status w = None /\ Http.written w = "".


(** The content types the trigger writes and the ones it dispatches on. *)
Definition jsonType : string := "application/json; charset=UTF-8".

Definition textType : string := "text/plain; charset=UTF-8".


(** The replies of the other examples: a string that is not JSON, and a
    status without data. *)
Definition replyHello : Reply := {| Code := 0; Data := VStr "hello" |}.

Definition replyCreated : Reply := {| Code := 201; Data := VNil |}.

Definition formType : string := "application/x-www-form-urlencoded".

Definition jsonRequestType : string := "application/json".

Definition multipartType : string := "multipart/form-data".

(** A request whose content type holds multipart/form-data past its start;
    [ParseMultipartForm] refuses it as not multipart. *)
Definition oddType : string := "text/plain; note=multipart/form-data".

Definition oddRequest : Http.Request :=
  {| Http.Method := "POST"; Http.Path := "/upload"; Http.RawQuery := "";
     Http.Header := {[ "Content-Type" := [oddType] ]};
     Http.Body := Http.Bytes "hello";
     Http.MultipartForm :=
       Err (ErrorString "request Content-Type isn't multipart/form-data") |}.

(** Every key of the parsed form holds at least one value. *)
Definition populated (m : Url.Values) : Prop :=
  map_Forall (fun _ (vs : list string) => vs <> []) m.

(** [val[0]] for a slice that has one. *)
Definition firstValue (val : list string) : any := VStr (hd "" val).

(** The pairs a query string holds, in the order of the text, and the
    values it gives for a key. *)
Definition pairOf (p : string) : option (string * string) :=
  match Url.parsePiece p with
  | Url.Pair k v => Some (k, v)
  | _ => None
  end.

Definition pairsOf (query : string) : list (string * string) :=
  omap pairOf (Url.Split query "&").

Definition valuesFor (key : string) (pairs : list (string * string))
  : list string :=
  (filter (fun kv => kv.1 = key) pairs).*2.

Definition extend (held : option (list string)) (more : list string)
  : option (list string) :=
  match held, more with
  | None, [] => None
  | _, _ => Some (default [] held ++ more)%list
  end.

Definition formRequest (body : string) : Http.Request :=
  {| Http.Method := "POST"; Http.Path := "/form"; Http.RawQuery := "";
     Http.Header := {[ "Content-Type" := [formType] ]};
     Http.Body := Http.Bytes body;
     Http.MultipartForm :=
       Err (ErrorString "request Content-Type isn't multipart/form-data") |}.

(** The details of the files under one key, and of all the files of a
    form visited in a given order. *)
Fixpoint detailsOf (key : string) (fh : list Http.FileHeader)
  : result (list any) :=
  match fh with
  | [] => Ok []
  | header :: fh' =>
      d ← getFileDetails key header; ds ← detailsOf key fh'; Ok (d :: ds)
  end.

Fixpoint collect (entries : list (string * list Http.FileHeader))
  : result (list any) :=
  match entries with
  | [] => Ok []
  | (key, fh) :: entries' =>
      ds ← detailsOf key fh; more ← collect entries'; Ok (ds ++ more)%list
  end.

(** The files a decoded multipart content holds. *)
Definition filesOf (d : decoded) : option (list any) :=
  match d with
  | Decoded (VMap m) =>
      match m !! "files" with
      | Some (VSlice files) => Some files
      | _ => None
      end
  | _ => None
  end.

(** An upload of two files under two field keys, and the details the
    trigger reports for each. *)
Definition crlf : string := String "013" (String "010" "").

Definition uploadBody : string :=
  Strings.Join
    [ "--x";
      js "Content-Disposition: form-data; name='a'; filename='a.txt'";
      "Content-Type: text/plain"; ""; "A";
      "--x";
      js "Content-Disposition: form-data; name='b'; filename='b.txt'";
      "Content-Type: text/plain"; ""; "B";
      "--x--"; "" ] crlf.

Definition fileA : Http.FileHeader :=
  {| Http.Filename := "a.txt"; Http.ContentType := "text/plain";
     Http.Size := 1; Http.Data := Ok "A" |}.

Definition fileB : Http.FileHeader :=
  {| Http.Filename := "b.txt"; Http.ContentType := "text/plain";
     Http.Size := 1; Http.Data := Ok "B" |}.

Definition uploadRequest : Http.Request :=
  {| Http.Method := "POST"; Http.Path := "/upload"; Http.RawQuery := "";
     Http.Header := {[ "Content-Type" := ["multipart/form-data; boundary=x"] ]};
     Http.Body := Http.Bytes uploadBody;
     Http.MultipartForm :=
       Ok {| Http.Value := ∅;
             Http.File := <["a" := [fileA]]> (<["b" := [fileB]]> ∅) |} |}.

Definition detailsA : any :=
  VMap (<["key" := VStr "a"]> (<["fileName" := VStr "a.txt"]>
       (<["fileType" := VStr "text/plain"]> (<["size" := VInt 1]>
       (<["file" := VBytes "A"]> ∅))))).

Definition detailsB : any :=
  VMap (<["key" := VStr "b"]> (<["fileName" := VStr "b.txt"]>
       (<["fileType" := VStr "text/plain"]> (<["size" := VInt 1]>
       (<["file" := VBytes "B"]> ∅))))).

(** The line feed that ends what [http.Error] and [Encoder.Encode] write. *)
Definition newline : string := String "010" "".

(** A handler that fails, and a request of plain text. *)
Definition failing : Handler :=
  {| Settings := Ok {| HandlerSettings.Method := "GET";
                       HandlerSettings.Path := "/fail" |};
     Handle := fun _ => Err (ErrorString "boom") |}.

Definition plainRequest : Http.Request :=
  {| Http.Method := "GET"; Http.Path := "/fail"; Http.RawQuery := "";
     Http.Header := {[ "Content-Type" := ["text/plain"] ]};
     Http.Body := Http.Bytes "hi";
     Http.MultipartForm :=
       Err (ErrorString "request Content-Type isn't multipart/form-data") |}.

Definition jsonRequest (body : string) : Http.Request :=
  {| Http.Method := "POST"; Http.Path := "/json"; Http.RawQuery := "";
     Http.Header := {[ "Content-Type" := [jsonRequestType] ]};
     Http.Body := Http.Bytes body;
     Http.MultipartForm :=
       Err (ErrorString "request Content-Type isn't multipart/form-data") |}.

Definition allowAll : list (string * string) :=
  [("Access-Control-Allow-Origin", "*")].

(** The paths the handlers are configured with. *)
Definition pathsOf (handlers : list Handler) : list string :=
  omap (fun h => match Settings h with
                 | Ok s => Some (HandlerSettings.Path s)
                 | Err _ => None
                 end) handlers.

(** The routes registered for OPTIONS on a path. *)
Definition preflights (router : list (Router.Route handle)) (p : string)
  : list (Router.Route handle) :=
  filter (fun r => Router.method r = "OPTIONS" /\ Router.pattern r = p) router.

(** What holds of the route table while [Initialize] fills it: a route for
    OPTIONS is the preflight responder; a path has one such route when it
    is in [pathMap] and none otherwise; an action route carries the
    upper-cased method of the handler it was registered for. *)
Record routed (handlers : list Handler) (pathMap : gmap string string)
    (router : list (Router.Route handle)) : Prop := {
  routed_options :
    forall r, r ∈ router -> Router.method r = "OPTIONS" ->
              Router.handle r = Preflight;
  routed_once :
    forall p, length (preflights router p)
              = match pathMap !! p with Some _ => 1 | None => 0 end;
  routed_action :
    forall r m h, r ∈ router -> Router.handle r = Action m h ->
      exists s, h ∈ handlers /\ Settings h = Ok s /\
                m = Strings.ToUpper (HandlerSettings.Method s) /\
                Router.method r = HandlerSettings.Method s /\
                Router.pattern r = HandlerSettings.Path s;
}.

(** The methods and paths the handlers are configured with, and the
    settings the router accepts. *)
Definition pairsOfSettings (handlers : list Handler) : list (string * string) :=
  omap (fun h => match Settings h with
                 | Ok s => Some (HandlerSettings.Method s, HandlerSettings.Path s)
                 | Err _ => None
                 end) handlers.

Definition wellConfigured (h : Handler) : Prop :=
  exists s, Settings h = Ok s /\
            Strings.HasPrefix (HandlerSettings.Path s) "/" = true /\
            HandlerSettings.Method s <> "OPTIONS".

(** A handler that replies with the content it was given, a trigger with
    three such handlers, and its router. *)
Definition echo (method path : string) : Handler :=
  {| Settings := Ok {| HandlerSettings.Method := method;
                       HandlerSettings.Path := path |};
     Handle := fun out => Ok (<["data" := Content out]> ∅) |}.

Definition demoHandlers : list Handler :=
  [echo "get" "/users/:id"; echo "POST" "/users/:id"; echo "GET" "/ping"].

Definition demoRouter : list (Router.Route handle) :=
  match Initialize demoHandlers with
  | Router.Run (Ok router) => router
  | _ => []
  end.

Definition allowPreflight (r : Http.Request) : list (string * string) :=
  [("Access-Control-Allow-Origin", "*");
   ("Access-Control-Allow-Methods", "GET, POST")].

Definition request (method path : string) : Http.Request :=
  {| Http.Method := method; Http.Path := path; Http.RawQuery := "";
     Http.Header := ∅; Http.Body := Http.Bytes "";
     Http.MultipartForm :=
       Err (ErrorString "request Content-Type isn't multipart/form-data") |}.

(** A request with a repeated query key and a repeated header. *)
Definition queryRequest : Http.Request :=
  {| Http.Method := "GET"; Http.Path := "/ping"; Http.RawQuery := "tag=a&x=1&tag=b";
     Http.Header := <["Accept" := ["text/html"; "application/json"]]> ∅;
     Http.Body := Http.Bytes "";
     Http.MultipartForm :=
       Err (ErrorString "request Content-Type isn't multipart/form-data") |}.

(** A JSON body declared with a charset parameter. *)
Definition charsetRequest : Http.Request :=
  {| Http.Method := "POST"; Http.Path := "/json"; Http.RawQuery := "";
     Http.Header := <["Content-Type" := ["application/json; charset=utf-8"]]> ∅;
     Http.Body := Http.Bytes (js "{'x':1}");
     Http.MultipartForm :=
       Err (ErrorString "request Content-Type isn't multipart/form-data") |}.

(** A handler whose result carries a code that is no integer. *)
Definition badCode : Handler :=
  {| Settings := Ok {| HandlerSettings.Method := "GET";
                       HandlerSettings.Path := "/fail" |};
     Handle := fun _ => Ok (<["code" := VStr "ok"]> ∅) |}.

(** A piece of a query string that makes [url.ParseQuery] fail. *)
Definition malformed (p : string) : Prop :=
  Url.parsePiece p = Url.Semicolon \/ exists e, Url.parsePiece p = Url.Bad e.

(** A file of a form that can be opened and read to its end. *)
Definition readable (h : Http.FileHeader) : Prop :=
  exists b, Http.Data h = Ok b.

(** The form of the upload of two files. *)
Definition uploadForm : Http.Form :=
  {| Http.Value := ∅;
     Http.File := <["a" := [fileA]]> (<["b" := [fileB]]> ∅) |}.

(** The routes of the router that a handler was registered for, the
    preflight responders, and the route [Initialize] registers for a
    handler. *)
Definition isOptions (r : Router.Route handle) : Prop :=
  Router.method r = "OPTIONS".

Definition isAction (r : Router.Route handle) : Prop :=
  ~ isOptions r.

#[global] Instance isOptions_dec r : Decision (isOptions r).
Proof. unfold isOptions. apply _. Defined.

#[global] Instance isAction_dec r : Decision (isAction r).
Proof. unfold isAction. apply _. Defined.

Definition actionRoute (h : Handler) : option (Router.Route handle) :=
  match Settings h with
  | Ok s =>
      Some {| Router.method := HandlerSettings.Method s;
              Router.pattern := HandlerSettings.Path s;
              Router.handle :=
                Action (Strings.ToUpper (HandlerSettings.Method s)) h |}
  | Err _ => None
  end.


(** A request whose body cannot be read. *)
Definition brokenRequest : Http.Request :=
  {| Http.Method := "POST"; Http.Path := "/json"; Http.RawQuery := "";
     Http.Header := <["Content-Type" := [jsonRequestType]]> ∅;
     Http.Body := Http.Broken "connection reset by peer";
     Http.MultipartForm :=
       Err (ErrorString "request Content-Type isn't multipart/form-data") |}.

(** * Properties *)

(** ** The library models on sample inputs *)

Example decode_empty_object : Json.Decode "{}" = Ok (VMap ∅).
Proof. vm_compute. reflexivity. Qed.

Example decode_then_encode :
  (v ← Json.Decode (js "{'y': [true, null, 'a<b', -1.5e3], 'x': {}} rest");
   Json.Marshal v)
  = Ok (js "{'x':{},'y':[true,null,'a\u003cb',-1.5e3]}").
Proof. vm_compute. reflexivity. Qed.

Example decode_stops_after_first_value :
  Json.Decode "12 x" = Ok (VFloat "12") /\
  Json.Unmarshal "12 x"
    = Err (SyntaxError "invalid character after top-level value").
Proof. vm_compute. split; reflexivity. Qed.

Example unmarshal_hello : Json.Unmarshal "hello"
  = Err (SyntaxError "invalid character 'h' looking for beginning of value").
Proof. vm_compute. reflexivity. Qed.

Example encode_bytes_and_int :
  Json.Marshal (VSlice [VBytes "AB"; VInt (-12)]) = Ok (js "['QUI=',-12]").
Proof. vm_compute. reflexivity. Qed.

Example parse_query_sample :
  Url.ParseQuery "a=%41+b&&c&d=%zz"
  = (<["a" := ["A b"]]> (<["c" := [""]]> ∅), Some (EscapeError "%zz")).
Proof. vm_compute. reflexivity. Qed.

Example match_path_sample :
  Router.matchPath "/users/:id" "/users/42"
  = Some [{| Router.Key := "id"; Router.Value := "42" |}] /\
  Router.matchPath "/users/:id" "/users/" = None.
Proof. vm_compute. split; reflexivity. Qed.

(** ** The response writer *)

Lemma unwritten_fresh : unwritten Http.fresh.
Proof. split; reflexivity. Qed.

Lemma setHeaders_status hs w :
  Http.status (setHeaders hs w) = Http.status w.
Proof.
  revert w. induction hs as [|kv hs IH]; intros w; simpl; [reflexivity|].
  rewrite IH. reflexivity.
Qed.

Lemma setHeaders_written hs w :
  Http.written (setHeaders hs w) = Http.written w.
Proof.
  revert w. induction hs as [|kv hs IH]; intros w; simpl; [reflexivity|].
  rewrite IH. reflexivity.
Qed.

Lemma unwritten_setHeaders hs w : unwritten w -> unwritten (setHeaders hs w).
Proof.
  intros [Hs Hw]. split.
  - rewrite setHeaders_status. exact Hs.
  - rewrite setHeaders_written. exact Hw.
Qed.

Lemma append_cons (c : ascii) (s t : string) :
  String c s ++ t = String c (s ++ t).
Proof. reflexivity. Qed.

Lemma append_nil_r (s : string) : s ++ "" = s.
Proof.
  induction s as [|c s IH]; [reflexivity|].
  rewrite append_cons, IH. reflexivity.
Qed.

(** What [http.Error] leaves behind on a writer nothing was written on. *)
Lemma Error_unwritten w msg code :
  unwritten w ->
  Http.status (Http.Error w msg code) = Some code /\
  Http.written (Http.Error w msg code) = msg ++ newline /\
  Http.header (Http.Error w msg code) !! "Content-Type"
    = Some "text/plain; charset=utf-8".
Proof.
  intros [Hs Hw]. unfold Http.Error, Http.Write, Http.WriteHeader, Http.Set_.
  simpl. rewrite Hs, Hw. simpl. repeat split.
  rewrite lookup_insert_ne by discriminate. apply lookup_insert_eq.
Qed.

(** ** Reply writing *)






(** The example of the claim: status 200, body hello, plain text, since
    hello is not JSON; a string that is JSON goes out as JSON, unchanged. *)
Example hello_is_text :
  let w := writeReply replyHello Http.fresh in
  Http.status w = Some 200%Z /\ Http.written w = "hello" /\
  Http.header w !! "Content-Type" = Some textType.
Proof. vm_compute. repeat split. Qed.

Example json_string_unchanged :
  let w := writeReply {| Code := 0; Data := VStr (js "{ 'a' : [1,  2] }") |}
             Http.fresh in
  Http.written w = js "{ 'a' : [1,  2] }" /\
  Http.header w !! "Content-Type" = Some jsonType.
Proof. vm_compute. repeat split. Qed.



Example created_is_201 :
  let w := writeReply replyCreated Http.fresh in
  Http.status w = Some 201%Z /\ Http.written w = "".
Proof. vm_compute. split; reflexivity. Qed.

(** ** Content-type dispatch *)

Lemma HasPrefix_spec (s p : string) :
  Strings.HasPrefix s p = true <-> exists t, s = p ++ t.
Proof.
  revert s. induction p as [|c p IH]; intros s; simpl.
  - split; [intros _; exists s; reflexivity | reflexivity].
  - destruct s as [|d s].
    + split; [discriminate | intros [t Ht]; discriminate Ht].
    + destruct (Ascii.eqb_spec d c) as [->|Hne].
      * rewrite IH. split; intros [t Ht]; exists t.
        -- rewrite append_cons, <- Ht. reflexivity.
        -- rewrite append_cons in Ht. congruence.
      * split; [discriminate|]. intros [t Ht].
        rewrite append_cons in Ht. congruence.
Qed.

(** [strings.Contains] finds the text anywhere in the string. *)
Lemma Contains_spec (s sub : string) :
  Strings.Contains s sub = true <-> exists a b, s = a ++ sub ++ b.
Proof.
  induction s as [|c s IH]; simpl.
  - destruct (Strings.HasPrefix "" sub) eqn:Hp.
    + apply HasPrefix_spec in Hp as [t Ht].
      split; [intros _; exists "", t; exact Ht | reflexivity].
    + split; [discriminate|]. intros (a & b & Hab).
      destruct a as [|x a]; [|discriminate Hab].
      assert (Strings.HasPrefix "" sub = true) as Hq
        by (apply HasPrefix_spec; exists b; exact Hab).
      congruence.
  - destruct (Strings.HasPrefix (String c s) sub) eqn:Hp.
    + apply HasPrefix_spec in Hp as [t Ht].
      split; [intros _; exists "", t; exact Ht | reflexivity].
    + rewrite IH. split.
      * intros (a & b & Hab). exists (String c a), b.
        rewrite append_cons, <- Hab. reflexivity.
      * intros (a & b & Hab). destruct a as [|x a].
        -- assert (Strings.HasPrefix (String c s) sub = true) as Hq
             by (apply HasPrefix_spec; exists b; exact Hab).
           congruence.
        -- rewrite append_cons in Hab. injection Hab as _ Hab.
           exists a, b. exact Hab.
Qed.

Lemma HasPrefix_Contains (s p : string) :
  Strings.HasPrefix s p = true -> Strings.Contains s p = true.
Proof.
  intros H. destruct s; simpl; rewrite H; reflexivity.
Qed.

(** C2, as amended: the multipart branch is taken exactly when the declared
    content type holds the text multipart/form-data somewhere, at its start
    or further on; a content type that does not hold it and is neither of
    the two exact types is decoded as raw text. *)
Theorem C2_multipart_by_substring (contentType : string) :
  (contentBranch contentType = MultipartBranch
   <-> Strings.Contains contentType multipartType = true) /\
  (contentBranch contentType = MultipartBranch
   <-> exists a b, contentType = a ++ multipartType ++ b) /\
  (Strings.HasPrefix contentType multipartType = true ->
   contentBranch contentType = MultipartBranch) /\
  (Strings.Contains contentType multipartType = false ->
   contentType <> formType -> contentType <> jsonRequestType ->
   contentBranch contentType = RawBranch /\
   forall pick r,
     Http.Get (Http.Header r) "Content-Type" = contentType ->
     decodeContent pick r = decodeRaw (Http.Body r)).
Proof.
  assert (Hmp : contentBranch contentType = MultipartBranch
                <-> Strings.Contains contentType multipartType = true).
  { unfold contentBranch.
    destruct (String.eqb_spec contentType "application/x-www-form-urlencoded")
      as [->|Hf]; [split; [discriminate | vm_compute; discriminate]|].
    destruct (String.eqb_spec contentType "application/json")
      as [->|Hj]; [split; [discriminate | vm_compute; discriminate]|].
    fold multipartType.
    destruct (Strings.Contains contentType multipartType);
      split; congruence. }
  split; [exact Hmp|]. split; [rewrite Hmp; apply Contains_spec|].
  split; [intros H; apply Hmp, HasPrefix_Contains, H|].
  intros Hc Hf Hj.
  assert (Hraw : contentBranch contentType = RawBranch).
  { unfold contentBranch.
    destruct (String.eqb_spec contentType "application/x-www-form-urlencoded")
      as [E|_]; [contradiction|].
    destruct (String.eqb_spec contentType "application/json")
      as [E|_]; [contradiction|].
    fold multipartType. rewrite Hc. reflexivity. }
  split; [exact Hraw|]. intros pick r Hct. unfold decodeContent.
  rewrite Hct, Hraw. reflexivity.
Qed.

(** C2, as stated, fails: this content type neither starts with
    multipart/form-data nor is one of the two exact types, yet the
    multipart branch is taken and the body is not decoded as raw text. *)
Lemma C2_counterexample :
  Strings.HasPrefix oddType multipartType = false /\
  oddType <> formType /\ oddType <> jsonRequestType /\
  contentBranch oddType = MultipartBranch /\
  forall pick, decodeContent pick oddRequest <> Decoded (VStr "hello").
Proof.
  split; [reflexivity|]. split; [discriminate|]. split; [discriminate|].
  split; [reflexivity|]. intros pick. vm_compute. discriminate.
Qed.

(** ** Ranging over maps *)

Lemma lawful_ascending : lawful ascending.
Proof. intros A m. reflexivity. Qed.

Lemma lawful_descending : lawful descending.
Proof. intros A m. unfold descending. symmetry. apply Permutation_rev. Qed.

Lemma rangeAssign_snoc {A B : Type} (f : A -> B) entries kv (dst : gmap string B) :
  rangeAssign f (entries ++ [kv])%list dst
  = <[kv.1 := f kv.2]> (rangeAssign f entries dst).
Proof. unfold rangeAssign. rewrite foldl_app. reflexivity. Qed.

Lemma rangeAssign_list_to_map {A B : Type} (f : A -> B)
    (entries : list (string * A)) :
  rangeAssign f entries ∅
  = list_to_map (rev ((fun kv => (kv.1, f kv.2)) <$> entries)).
Proof.
  induction entries as [|kv entries IH] using rev_ind; [reflexivity|].
  rewrite rangeAssign_snoc, IH, fmap_app, rev_app_distr. reflexivity.
Qed.

(** A loop that assigns [dst[key] = f(value)] for every entry of a map
    builds the same map whatever the order of the visit. *)
Lemma rangeAssign_lawful {A B : Type} (f : A -> B) (m : gmap string A)
    (entries : list (string * A)) :
  entries ≡ₚ map_to_list m -> rangeAssign f entries ∅ = f <$> m.
Proof.
  intros Hp. rewrite rangeAssign_list_to_map.
  rewrite <- (list_to_map_to_list (f <$> m)).
  assert (Hq : rev ((fun kv => (kv.1, f kv.2)) <$> entries)
               ≡ₚ map_to_list (f <$> m)).
  { rewrite <- Permutation_rev, Hp, map_to_list_fmap.
    replace (prod_map id f <$> map_to_list m)
      with ((fun kv : string * A => (kv.1, f kv.2)) <$> map_to_list m);
      [reflexivity|].
    apply list_fmap_ext. intros i [k v] _. reflexivity. }
  apply list_to_map_proper; [|exact Hq].
  rewrite Hq. apply NoDup_fst_map_to_list.
Qed.

(** ** Form decoding *)

Lemma Add_populated m key value : populated m -> populated (Url.Add m key value).
Proof.
  intros Hm. unfold Url.Add. apply map_Forall_insert_2; [|exact Hm].
  destruct (default [] (m !! key)); discriminate.
Qed.

Lemma parseStep_populated acc p :
  populated acc.1 -> populated (Url.parseStep acc p).1.
Proof.
  intros H. unfold Url.parseStep. destruct (Url.parsePiece p); simpl; auto.
  apply Add_populated, H.
Qed.

Lemma foldl_parseStep_populated pieces acc :
  populated acc.1 -> populated (foldl Url.parseStep acc pieces).1.
Proof.
  revert acc. induction pieces as [|p pieces IH]; intros acc H; simpl; auto.
  apply IH, parseStep_populated, H.
Qed.

Lemma ParseQuery_populated query : populated (Url.ParseQuery query).1.
Proof.
  apply foldl_parseStep_populated. simpl. apply map_Forall_empty.
Qed.

Lemma formContent_acc entries (content : gmap string any) :
  Forall (fun kv : string * list string => kv.2 <> []) entries ->
  foldl (fun acc kv =>
           content ← acc; v ← head kv.2; Some (<[kv.1 := VStr v]> content))
        (Some content) entries
  = Some (rangeAssign firstValue entries content).
Proof.
  revert content. induction entries as [|[k vs] entries IH];
    intros content Hne; [reflexivity|].
  apply Forall_cons in Hne as [Hvs Hne]. simpl in Hvs.
  destruct vs as [|v vs]; [contradiction|]. simpl. apply IH, Hne.
Qed.

(** The loop of lines 187-194 never indexes an empty slice and binds every
    key to its first value, whatever the order of the visit. *)
Lemma formContent_lawful (pick : ranger) (m : Url.Values) :
  lawful pick -> populated m ->
  formContent (pick _ m) = Some (firstValue <$> m).
Proof.
  intros Hpick Hm. unfold formContent. rewrite formContent_acc.
  - f_equal. apply rangeAssign_lawful, Hpick.
  - apply Forall_forall. intros [k vs] Hin. simpl.
    rewrite (Hpick _ m) in Hin. apply elem_of_map_to_list in Hin.
    exact (Hm k vs Hin).
Qed.

Lemma decodeForm_lawful (pick : ranger) (s : string) (m : Url.Values) :
  lawful pick -> Url.ParseQuery s = (m, None) ->
  decodeForm pick (Http.Bytes s) = Decoded (VMap (firstValue <$> m)).
Proof.
  intros Hpick Hq. unfold decodeForm. rewrite Hq.
  rewrite formContent_lawful; [reflexivity | exact Hpick |].
  pose proof (ParseQuery_populated s) as H. rewrite Hq in H. exact H.
Qed.


Lemma foldl_parseStep_lookup pieces acc key :
  (foldl Url.parseStep acc pieces).1 !! key
  = extend (acc.1 !! key) (valuesFor key (omap pairOf pieces)).
Proof.
  revert acc. induction pieces as [|p pieces IH]; intros acc; simpl.
  - unfold valuesFor. simpl. destruct (acc.1 !! key) as [vs|]; simpl;
      [rewrite app_nil_r|]; reflexivity.
  - rewrite IH. unfold Url.parseStep, pairOf.
    destruct (Url.parsePiece p) as [| |e|k v]; simpl; try reflexivity.
    unfold valuesFor. rewrite filter_cons. simpl.
    destruct (decide (k = key)) as [->|Hne]; simpl.
    + unfold Url.Add. rewrite lookup_insert_eq.
      destruct (acc.1 !! key) as [vs|]; simpl;
        [rewrite <- app_assoc|]; reflexivity.
    + unfold Url.Add. rewrite lookup_insert_ne by exact Hne. reflexivity.
Qed.

(** [url.ParseQuery] gathers under each key the values the text gives for
    it, in the order of the text. *)
Lemma ParseQuery_lookup query key :
  (Url.ParseQuery query).1 !! key
  = match valuesFor key (pairsOf query) with
    | [] => None
    | vs => Some vs
    end.
Proof.
  unfold Url.ParseQuery. rewrite foldl_parseStep_lookup. simpl.
  rewrite lookup_empty. fold (pairsOf query).
  destruct (valuesFor key (pairsOf query)); reflexivity.
Qed.

(** C3: a request declared as application/x-www-form-urlencoded whose body
    is a well-formed query string decodes to a mapping that binds every key
    of the body to the first value the body gives for it, and to nothing
    else; the further values of a key are dropped. *)
Theorem C3_form_binds_first_value (pick : ranger) (r : Http.Request)
    (s : string) :
  lawful pick ->
  Http.Get (Http.Header r) "Content-Type" = formType ->
  Http.Body r = Http.Bytes s ->
  (Url.ParseQuery s).2 = None ->
  exists content : gmap string any,
    decodeContent pick r = Decoded (VMap content) /\
    forall key, content !! key = VStr <$> head (valuesFor key (pairsOf s)).
Proof.
  intros Hpick Hct Hbody Hok.
  destruct (Url.ParseQuery s) as [m err] eqn:Hq. simpl in Hok. subst err.
  exists (firstValue <$> m). split.
  - unfold decodeContent. rewrite Hct, Hbody. simpl.
    apply decodeForm_lawful; assumption.
  - intros key. rewrite lookup_fmap.
    pose proof (ParseQuery_lookup s key) as Hl. rewrite Hq in Hl. simpl in Hl.
    rewrite Hl. destruct (valuesFor key (pairsOf s)); reflexivity.
Qed.

Lemma C3_witness :
  lawful ascending /\
  Http.Get (Http.Header (formRequest "a=1&a=2&b=x")) "Content-Type" = formType /\
  Http.Body (formRequest "a=1&a=2&b=x") = Http.Bytes "a=1&a=2&b=x" /\
  (Url.ParseQuery "a=1&a=2&b=x").2 = None /\
  exists content : gmap string any,
    decodeContent ascending (formRequest "a=1&a=2&b=x")
      = Decoded (VMap content) /\
    forall key,
      content !! key = VStr <$> head (valuesFor key (pairsOf "a=1&a=2&b=x")).
Proof.
  split; [exact lawful_ascending|]. split; [reflexivity|].
  split; [reflexivity|]. split; [vm_compute; reflexivity|].
  apply (C3_form_binds_first_value ascending (formRequest "a=1&a=2&b=x")
           "a=1&a=2&b=x" lawful_ascending eq_refl eq_refl).
  vm_compute. reflexivity.
Defined.

(** The example of the claim, under any order of the visit: a is bound to
    1, its first value, and b to x. *)
Example form_a1_a2_bx (pick : ranger) :
  lawful pick ->
  decodeContent pick (formRequest "a=1&a=2&b=x")
  = Decoded (VMap (<["a" := VStr "1"]> (<["b" := VStr "x"]> ∅))).
Proof.
  intros Hpick. unfold decodeContent.
  change (contentBranch _) with FormBranch. cbv beta iota.
  change (Http.Body _) with (Http.Bytes "a=1&a=2&b=x").
  rewrite (decodeForm_lawful pick "a=1&a=2&b=x"
             (<["a" := ["1"; "2"]]> (<["b" := ["x"]]> ∅)) Hpick);
    [|vm_compute; reflexivity].
  vm_compute. reflexivity.
Qed.

(** ** Multipart decoding *)

Lemma appendFiles_details key fh files :
  appendFiles key fh files = (ds ← detailsOf key fh; Ok (files ++ ds)%list).
Proof.
  revert files. induction fh as [|header fh IH]; intros files; simpl.
  - rewrite app_nil_r. reflexivity.
  - destruct (getFileDetails key header) as [d|e]; simpl; [|reflexivity].
    rewrite IH. destruct (detailsOf key fh) as [ds|e]; simpl; [|reflexivity].
    rewrite <- app_assoc. reflexivity.
Qed.

Lemma rangeFiles_collect entries files :
  rangeFiles entries files = (all ← collect entries; Ok (files ++ all)%list).
Proof.
  revert files. induction entries as [|[key fh] entries IH]; intros files; simpl.
  - rewrite app_nil_r. reflexivity.
  - rewrite appendFiles_details.
    destruct (detailsOf key fh) as [ds|e]; simpl; [|reflexivity].
    rewrite IH. destruct (collect entries) as [more|e]; simpl; [|reflexivity].
    rewrite <- app_assoc. reflexivity.
Qed.

(** Visiting the same entries in another order yields the same files,
    in another order. *)
Lemma collect_Permutation entries1 entries2 :
  entries1 ≡ₚ entries2 ->
  forall files1, collect entries1 = Ok files1 ->
  exists files2, collect entries2 = Ok files2 /\ files1 ≡ₚ files2.
Proof.
  induction 1 as [|[key fh] l1 l2 Hp IH|[k1 f1] [k2 f2] l|l1 l2 l3 _ IH1 _ IH2];
    intros files1 H1.
  - exists files1. split; [exact H1 | reflexivity].
  - simpl in *. destruct (detailsOf key fh) as [ds|e]; [|discriminate].
    simpl in *. destruct (collect l1) as [more|e]; [|discriminate].
    simpl in H1. injection H1 as <-.
    destruct (IH more eq_refl) as (more2 & -> & Hm). simpl.
    exists (ds ++ more2)%list. split; [reflexivity|].
    apply Permutation_app_head, Hm.
  - simpl in *. destruct (detailsOf k2 f2) as [d2|e]; [|discriminate].
    simpl in *. destruct (detailsOf k1 f1) as [d1|e]; [|discriminate].
    simpl in *. destruct (collect l) as [more|e]; [|discriminate].
    simpl in *. injection H1 as <-.
    exists (d1 ++ d2 ++ more)%list. split; [reflexivity|].
    apply Permutation_app_swap_app.
  - destruct (IH1 files1 H1) as (files2 & H2 & Hp12).
    destruct (IH2 files2 H2) as (files3 & H3 & Hp23).
    exists files3. split; [exact H3 | etransitivity; eassumption].
Qed.

Lemma decodeForm_order (pick1 pick2 : ranger) (b : Http.body) :
  lawful pick1 -> lawful pick2 -> decodeForm pick1 b = decodeForm pick2 b.
Proof.
  intros H1 H2. destruct b as [s|e]; [|reflexivity].
  destruct (Url.ParseQuery s) as [m [e|]] eqn:Hq.
  - unfold decodeForm. rewrite Hq. reflexivity.
  - rewrite (decodeForm_lawful pick1 s m H1 Hq).
    rewrite (decodeForm_lawful pick2 s m H2 Hq). reflexivity.
Qed.

Lemma filesOf_multipartContent files :
  filesOf (Decoded (multipartContent files)) = Some files.
Proof.
  unfold filesOf, multipartContent.
  rewrite lookup_insert_ne by discriminate.
  rewrite lookup_insert_eq. reflexivity.
Qed.

(** C9, as amended: decoding depends on the content type and the body
    alone, except for the order of the files of a multipart form.  Two
    decodings of one request agree outright when the request is not
    multipart, when its form cannot be parsed, and when its files come
    under at most one field key; otherwise they yield the same files, in
    an order that may differ, since the files are gathered by ranging over
    a map. *)
Theorem C9_decoding_up_to_file_order (pick1 pick2 : ranger) (r : Http.Request) :
  lawful pick1 -> lawful pick2 ->
  let branch := contentBranch (Http.Get (Http.Header r) "Content-Type") in
  (branch <> MultipartBranch ->
   decodeContent pick1 r = decodeContent pick2 r) /\
  (forall e, Http.MultipartForm r = Err e ->
   decodeContent pick1 r = decodeContent pick2 r) /\
  (forall form, Http.MultipartForm r = Ok form -> size (Http.File form) <= 1 ->
   decodeContent pick1 r = decodeContent pick2 r) /\
  (forall files1, branch = MultipartBranch ->
   decodeContent pick1 r = Decoded (multipartContent files1) ->
   exists files2,
     decodeContent pick2 r = Decoded (multipartContent files2) /\
     files1 ≡ₚ files2).
Proof.
  intros H1 H2 branch. unfold decodeContent. fold branch.
  assert (Hform : decodeForm pick1 (Http.Body r) = decodeForm pick2 (Http.Body r))
    by (apply decodeForm_order; assumption).
  split; [|split; [|split]].
  - intros Hb. destruct branch; try reflexivity; [exact Hform | contradiction].
  - intros e He. destruct branch; try reflexivity; [exact Hform|].
    rewrite He. reflexivity.
  - intros form Hf Hsize. destruct branch; try reflexivity; [exact Hform|].
    rewrite Hf. unfold decodeMultipart.
    assert (Hlen : length (map_to_list (Http.File form)) <= 1)
      by (rewrite length_map_to_list; exact Hsize).
    pose proof (H1 _ (Http.File form)) as Hp1.
    pose proof (H2 _ (Http.File form)) as Hp2.
    destruct (map_to_list (Http.File form)) as [|x [|y l]].
    + apply Permutation_nil_r in Hp1, Hp2. rewrite Hp1, Hp2. reflexivity.
    + apply Permutation_singleton_r in Hp1, Hp2. rewrite Hp1, Hp2. reflexivity.
    + simpl in Hlen. lia.
  - intros files1 Hb. rewrite Hb. unfold decodeMultipart.
    destruct (Http.MultipartForm r) as [form|e]; [|discriminate].
    rewrite !rangeFiles_collect.
    destruct (collect (pick1 _ (Http.File form))) as [all1|e] eqn:Hc1;
      [|discriminate].
    simpl. intros Hd.
    assert (Hperm : pick1 _ (Http.File form) ≡ₚ pick2 _ (Http.File form))
      by (rewrite (H1 _ (Http.File form)), (H2 _ (Http.File form)); reflexivity).
    destruct (collect_Permutation _ _ Hperm all1 Hc1) as (all2 & -> & Hall).
    simpl. exists all2. split; [reflexivity|].
    assert (files1 = all1) as ->; [|exact Hall].
    apply (f_equal filesOf) in Hd. rewrite !filesOf_multipartContent in Hd.
    congruence.
Qed.

Lemma C9_witness :
  lawful ascending /\ lawful descending /\
  let branch :=
    contentBranch (Http.Get (Http.Header uploadRequest) "Content-Type") in
  (branch <> MultipartBranch ->
   decodeContent ascending uploadRequest = decodeContent descending uploadRequest) /\
  (forall e, Http.MultipartForm uploadRequest = Err e ->
   decodeContent ascending uploadRequest = decodeContent descending uploadRequest) /\
  (forall form, Http.MultipartForm uploadRequest = Ok form ->
   size (Http.File form) <= 1 ->
   decodeContent ascending uploadRequest = decodeContent descending uploadRequest) /\
  (forall files1, branch = MultipartBranch ->
   decodeContent ascending uploadRequest = Decoded (multipartContent files1) ->
   exists files2,
     decodeContent descending uploadRequest = Decoded (multipartContent files2) /\
     files1 ≡ₚ files2).
Proof.
  split; [exact lawful_ascending|]. split; [exact lawful_descending|].
  exact (C9_decoding_up_to_file_order ascending descending uploadRequest
           lawful_ascending lawful_descending).
Defined.

(** C9, as stated, fails: two decodings of this one request, each visiting
    the files of the form in an order the runtime may pick, both succeed
    and list the two files in opposite orders. *)
Lemma C9_counterexample :
  lawful ascending /\ lawful descending /\
  decodeContent ascending uploadRequest
    = Decoded (multipartContent [detailsA; detailsB]) /\
  decodeContent descending uploadRequest
    = Decoded (multipartContent [detailsB; detailsA]) /\
  decodeContent ascending uploadRequest <> decodeContent descending uploadRequest.
Proof.
  split; [exact lawful_ascending|]. split; [exact lawful_descending|].
  assert (Ha : decodeContent ascending uploadRequest
               = Decoded (multipartContent [detailsA; detailsB]))
    by (vm_compute; reflexivity).
  assert (Hd : decodeContent descending uploadRequest
               = Decoded (multipartContent [detailsB; detailsA]))
    by (vm_compute; reflexivity).
  split; [exact Ha|]. split; [exact Hd|].
  rewrite Ha, Hd. intros H. apply (f_equal filesOf) in H.
  rewrite !filesOf_multipartContent in H.
  apply (f_equal (fun l => match l with
                           | Some (VMap m :: _) => m !! "key"
                           | _ => None
                           end)) in H.
  vm_compute in H. discriminate H.
Qed.

(** ** The action handler *)


Section Dispatch.

Variable corsActual : list (string * string).
Variable corsPreflight : Http.Request -> list (string * string).
Variable FromMap : gmap string any -> result Reply.

Lemma badRequest_unwritten w e :
  unwritten w ->
  let w' := badRequest (WriteCorsActualRequestHeaders corsActual w) e in
  Http.status w' = Some 400%Z /\
  Http.written w' = Error e ++ newline.
Proof.
  intros Hw. unfold badRequest.
  destruct (Error_unwritten (WriteCorsActualRequestHeaders corsActual w)
              (Error e) Http.StatusBadRequest) as (Hs & Hb & _).
  { apply unwritten_setHeaders, Hw. }
  split; assumption.
Qed.

(** C4: with content type application/json, an empty body is no error:
    the content is nil and the handler is called with it; any other failure
    of the JSON decoder, such as a body cut after its opening brace, is
    answered with status 400 and the handler is not called. *)
Theorem C4_empty_json_body_is_not_an_error (method : string) (handler : Handler)
    (pick : ranger) (w : Http.ResponseWriter) (r : Http.Request)
    (ps : list Router.Param) :
  unwritten w ->
  Http.Get (Http.Header r) "Content-Type" = jsonRequestType ->
  let s := newActionHandler corsActual FromMap method handler pick w r ps in
  (Http.Body r = Http.Bytes "" ->
   decodeContent pick r = Decoded VNil /\
   calls s = [output method pick r ps VNil]) /\
  (forall body e,
     Http.Body r = Http.Bytes body -> Json.Decode body = Err e -> e <> io_EOF ->
     Http.status (resp s) = Some 400%Z /\
     Http.written (resp s) = Error e ++ newline /\
     calls s = []) /\
  Json.Decode "" = Err io_EOF /\
  Json.Decode "{" = Err io_ErrUnexpectedEOF.
Proof.
  intros Hw Hct s.
  assert (Hd : decodeContent pick r = decodeJson (Http.Body r))
    by (unfold decodeContent; rewrite Hct; reflexivity).
  split; [|split; [|split; reflexivity]].
  - intros Hbody.
    assert (Hnil : decodeContent pick r = Decoded VNil)
      by (rewrite Hd, Hbody; reflexivity).
    split; [exact Hnil|]. subst s. unfold newActionHandler. rewrite Hnil.
    destruct (Handle handler _) as [results|e]; [|reflexivity].
    destruct (FromMap results); reflexivity.
  - intros body e Hbody Hdec Hne.
    assert (Hrej : decodeContent pick r = Rejected e).
    { rewrite Hd, Hbody. unfold decodeJson. rewrite Hdec.
      destruct e; try reflexivity. contradiction. }
    subst s. unfold newActionHandler. rewrite Hrej. simpl.
    destruct (badRequest_unwritten w e Hw) as [Hs Hb].
    split; [exact Hs|]. split; [exact Hb | reflexivity].
Qed.


End Dispatch.

Lemma C4_witness :
  unwritten Http.fresh /\
  Http.Get (Http.Header (jsonRequest "{")) "Content-Type" = jsonRequestType /\
  let r := jsonRequest "{" in
  let s := newActionHandler allowAll replyFromMap "POST" failing ascending
             Http.fresh r [] in
  (Http.Body r = Http.Bytes "" ->
   decodeContent ascending r = Decoded VNil /\
   calls s = [output "POST" ascending r [] VNil]) /\
  (forall body e,
     Http.Body r = Http.Bytes body -> Json.Decode body = Err e -> e <> io_EOF ->
     Http.status (resp s) = Some 400%Z /\
     Http.written (resp s) = Error e ++ newline /\
     calls s = []) /\
  Json.Decode "" = Err io_EOF /\
  Json.Decode "{" = Err io_ErrUnexpectedEOF.
Proof.
  split; [exact unwritten_fresh|]. split; [reflexivity|].
  exact (C4_empty_json_body_is_not_an_error allowAll replyFromMap "POST"
           failing ascending Http.fresh (jsonRequest "{") []
           unwritten_fresh eq_refl).
Defined.

(** The two bodies of the claim, served: the empty one reaches the handler
    with nil content, the truncated one is answered 400 before it. *)
Example empty_json_reaches_handler :
  calls (newActionHandler allowAll replyFromMap "POST" failing ascending
           Http.fresh (jsonRequest "") [])
  = [output "POST" ascending (jsonRequest "") [] VNil].
Proof. vm_compute. reflexivity. Qed.

Example truncated_json_is_400 :
  let s := newActionHandler allowAll replyFromMap "POST" failing ascending
             Http.fresh (jsonRequest "{") [] in
  Http.status (resp s) = Some 400%Z /\ calls s = [] /\
  Http.written (resp s) = "unexpected EOF" ++ newline.
Proof. vm_compute. repeat split. Qed.



(** ** The route table *)


Lemma registered_true (router : list (Router.Route handle)) m p :
  Router.registered router m p = true <->
  exists r, r ∈ router /\ Router.method r = m /\ Router.pattern r = p.
Proof.
  unfold Router.registered. rewrite existsb_exists. split.
  - intros (r & Hin & Hr). apply andb_prop in Hr as [Hm Hp].
    apply String.eqb_eq in Hm, Hp. exists r.
    split; [apply list_elem_of_In, Hin | split; assumption].
  - intros (r & Hin & Hm & Hp). exists r.
    split; [apply list_elem_of_In, Hin|].
    rewrite Hm, Hp, !String.eqb_refl. reflexivity.
Qed.

Lemma Handle_Run (router router' : list (Router.Route handle)) m p h :
  Router.Handle m p h router = Router.Run router' ->
  router' = (router ++ [{| Router.method := m; Router.pattern := p;
                            Router.handle := h |}])%list /\
  Router.registered router m p = false.
Proof.
  unfold Router.Handle.
  destruct (negb (Strings.HasPrefix p "/")); [discriminate|].
  destruct (Router.registered router m p); [discriminate|].
  intros H. injection H as <-. split; reflexivity.
Qed.

Lemma preflights_snoc router r p :
  preflights (router ++ [r]) p
  = (preflights router p
     ++ if decide (Router.method r = "OPTIONS" /\ Router.pattern r = p)
        then [r] else [])%list.
Proof.
  unfold preflights. rewrite filter_app, filter_cons, filter_nil. reflexivity.
Qed.

Lemma routed_empty handlers : routed handlers ∅ [].
Proof.
  split.
  - intros r Hin. inversion Hin.
  - intros p. rewrite lookup_empty. reflexivity.
  - intros r m h Hin. inversion Hin.
Qed.

(** Registering the preflight responder of a path not seen before. *)
Lemma routed_preflight handlers pathMap router router' path :
  routed handlers pathMap router ->
  pathMap !! path = None ->
  Router.OPTIONS path Preflight router = Router.Run router' ->
  routed handlers (<[path := path]> pathMap) router'.
Proof.
  intros [Hopt Honce Hact] Hnone Hrun.
  apply Handle_Run in Hrun as [-> _]. split.
  - intros r Hin Hm. apply elem_of_app in Hin as [Hin|Hin]; [eauto|].
    apply list_elem_of_singleton in Hin as ->. reflexivity.
  - intros p. rewrite preflights_snoc, length_app, Honce. simpl.
    destruct (decide (path = p)) as [->|Hne].
    + rewrite Hnone, lookup_insert_eq.
      destruct (decide _) as [_|Hn]; [reflexivity|].
      exfalso. apply Hn. split; reflexivity.
    + rewrite lookup_insert_ne by exact Hne.
      destruct (decide (_ /\ _)) as [[_ Hp]|_]; [contradiction|].
      simpl. lia.
  - intros r m h Hin Hh. apply elem_of_app in Hin as [Hin|Hin]; [eauto|].
    apply list_elem_of_singleton in Hin as ->. discriminate Hh.
Qed.

(** Registering the action handler of a handler whose path is in
    [pathMap]: the registration succeeds only for a method other than
    OPTIONS, which the preflight responder holds already. *)
Lemma routed_action_handler handlers pathMap router router' handler s :
  routed handlers pathMap router ->
  handler ∈ handlers ->
  Settings handler = Ok s ->
  is_Some (pathMap !! HandlerSettings.Path s) ->
  Router.Handle (HandlerSettings.Method s) (HandlerSettings.Path s)
    (Action (Strings.ToUpper (HandlerSettings.Method s)) handler) router
  = Router.Run router' ->
  routed handlers pathMap router'.
Proof.
  intros [Hopt Honce Hact] Hin Hs Hpath Hrun.
  apply Handle_Run in Hrun as [-> Hreg].
  assert (Hm : HandlerSettings.Method s <> "OPTIONS").
  { intros Hm. rewrite Hm in Hreg.
    assert (Router.registered router "OPTIONS" (HandlerSettings.Path s) = true)
      as Hyes; [|congruence].
    apply registered_true.
    specialize (Honce (HandlerSettings.Path s)).
    destruct Hpath as [x Hx]. rewrite Hx in Honce.
    destruct (preflights router (HandlerSettings.Path s)) as [|r l] eqn:Hpre;
      [discriminate|].
    assert (r ∈ preflights router (HandlerSettings.Path s)) as Hr
      by (rewrite Hpre; left).
    apply list_elem_of_filter in Hr as [[Hrm Hrp] Hrin].
    exists r. auto. }
  split.
  - intros r Hr Hrm. apply elem_of_app in Hr as [Hr|Hr]; [eauto|].
    apply list_elem_of_singleton in Hr as ->. simpl in Hrm. contradiction.
  - intros p. rewrite preflights_snoc, length_app, Honce. simpl.
    destruct (decide (_ /\ _)) as [[Hrm _]|_]; [contradiction|].
    simpl. lia.
  - intros r m h Hr Hh. apply elem_of_app in Hr as [Hr|Hr]; [eauto|].
    apply list_elem_of_singleton in Hr as ->. simpl in Hh.
    injection Hh as <- <-. exists s. simpl. auto.
Qed.

Lemma register_routed all handlers pathMap router router' :
  (forall h, h ∈ handlers -> h ∈ all) ->
  routed all pathMap router ->
  register handlers pathMap router = Router.Run (Ok router') ->
  exists pathMap',
    routed all pathMap' router' /\
    forall p, is_Some (pathMap' !! p)
              <-> is_Some (pathMap !! p) \/ p ∈ pathsOf handlers.
Proof.
  revert pathMap router.
  induction handlers as [|handler handlers IH]; intros pathMap router Hall Hr Hreg.
  - simpl in Hreg. injection Hreg as <-. exists pathMap. split; [exact Hr|].
    intros p. simpl. split; [auto|]. intros [H|H]; [exact H | inversion H].
  - simpl in Hreg. destruct (Settings handler) as [s|e] eqn:Hs; [|discriminate].
    assert (Hin : handler ∈ all) by (apply Hall; left).
    assert (Hrest : forall h, h ∈ handlers -> h ∈ all)
      by (intros h Hh; apply Hall; right; exact Hh).
    assert (Hpaths : forall p, p ∈ pathsOf (handler :: handlers)
                               <-> p = HandlerSettings.Path s \/ p ∈ pathsOf handlers).
    { intros p. unfold pathsOf. simpl. rewrite Hs. simpl.
      rewrite elem_of_cons. reflexivity. }
    destruct (pathMap !! HandlerSettings.Path s) as [x|] eqn:Hpm.
    + destruct (Router.Handle _ _ _ router) as [router1|msg] eqn:Hh;
        [|discriminate].
      assert (Hr1 : routed all pathMap router1).
      { eapply routed_action_handler; eauto; rewrite ?Hpm; eauto. }
      destruct (IH pathMap router1 Hrest Hr1 Hreg) as (pathMap' & Hr' & Hdom).
      exists pathMap'. split; [exact Hr'|]. intros p.
      rewrite Hdom, Hpaths. split; [tauto|].
      intros [H|[->|H]]; [tauto | left; rewrite Hpm; eauto | tauto].
    + destruct (Router.OPTIONS _ Preflight router) as [router0|msg] eqn:Ho;
        [|discriminate].
      destruct (Router.Handle _ _ _ router0) as [router1|msg] eqn:Hh;
        [|discriminate].
      assert (Hr0 : routed all (<[HandlerSettings.Path s :=
                                   HandlerSettings.Path s]> pathMap) router0)
        by (eapply routed_preflight; eauto).
      assert (Hr1 : routed all (<[HandlerSettings.Path s :=
                                   HandlerSettings.Path s]> pathMap) router1).
      { eapply routed_action_handler; eauto;
          rewrite ?lookup_insert_eq; eauto. }
      destruct (IH _ router1 Hrest Hr1 Hreg) as (pathMap' & Hr' & Hdom).
      exists pathMap'. split; [exact Hr'|]. intros p.
      rewrite Hdom, Hpaths.
      destruct (decide (HandlerSettings.Path s = p)) as [<-|Hne].
      * rewrite lookup_insert_eq. split; [tauto|]. intros _. left. eauto.
      * rewrite lookup_insert_ne by exact Hne. split; [tauto|].
        intros [H|[->|H]]; [tauto | contradiction | tauto].
Qed.

Lemma Initialize_routed handlers router :
  Initialize handlers = Router.Run (Ok router) ->
  exists pathMap,
    routed handlers pathMap router /\
    forall p, is_Some (pathMap !! p) <-> p ∈ pathsOf handlers.
Proof.
  intros Hinit.
  destruct (register_routed handlers handlers ∅ [] router
              (fun h H => H) (routed_empty handlers) Hinit)
    as (pathMap & Hr & Hdom).
  exists pathMap. split; [exact Hr|]. intros p. rewrite Hdom, lookup_empty.
  split; [|auto]. intros [[x Hx]|H]; [discriminate | exact H].
Qed.

Lemma Lookup_Some (router : list (Router.Route handle)) m path h ps :
  Router.Lookup router m path = Some (h, ps) ->
  exists r, r ∈ router /\ Router.method r = m /\ Router.handle r = h /\
            Router.matchPath (Router.pattern r) path = Some ps.
Proof.
  induction router as [|r router IH]; simpl; [discriminate|].
  destruct (String.eqb_spec (Router.method r) m) as [Hm|Hm].
  - destruct (Router.matchPath (Router.pattern r) path) as [ps'|] eqn:Hmatch.
    + intros H. injection H as <- <-. exists r.
      split; [left | auto].
    + intros H. destruct (IH H) as (r' & Hin & Hr'). exists r'.
      split; [right; exact Hin | exact Hr'].
  - intros H. destruct (IH H) as (r' & Hin & Hr'). exists r'.
    split; [right; exact Hin | exact Hr'].
Qed.

Lemma Lookup_None (router : list (Router.Route handle)) m path r :
  Router.Lookup router m path = None ->
  r ∈ router -> Router.method r = m ->
  Router.matchPath (Router.pattern r) path = None.
Proof.
  induction router as [|r' router IH]; simpl; intros Hl Hin Hm;
    [inversion Hin|].
  apply elem_of_cons in Hin as [->|Hin].
  - rewrite Hm, String.eqb_refl in Hl.
    destruct (Router.matchPath (Router.pattern r') path); [discriminate|].
    reflexivity.
  - destruct (String.eqb (Router.method r') m).
    + destruct (Router.matchPath (Router.pattern r') path); [discriminate|].
      apply IH; assumption.
    + apply IH; assumption.
Qed.





Section Serving.

Variable corsActual : list (string * string).
Variable corsPreflight : Http.Request -> list (string * string).
Variable FromMap : gmap string any -> result Reply.


(** C8: in the router [Initialize] builds, every path the handlers are
    configured with has exactly one route for OPTIONS, however many
    methods are registered on it, and no other path has one; a route for
    OPTIONS is always the preflight responder, so a request with method
    OPTIONS is answered by the CORS negotiator, whenever its path matches
    a configured path, and never reaches a handler. *)
Theorem C8_one_preflight_per_path (handlers : list Handler)
    (router : list (Router.Route handle)) :
  Initialize handlers = Router.Run (Ok router) ->
  (forall p, length (preflights router p)
             = if decide (p ∈ pathsOf handlers) then 1 else 0) /\
  (forall r, r ∈ router -> Router.method r = "OPTIONS" ->
             Router.handle r = Preflight) /\
  (forall pick req,
     Http.Method req = "OPTIONS" ->
     let s := ServeHTTP corsActual corsPreflight FromMap router pick req in
     calls s = [] /\
     forall p, p ∈ pathsOf handlers ->
               is_Some (Router.matchPath p (Http.Path req)) ->
               resp s = HandlePreflight corsPreflight Http.fresh req).
Proof.
  intros Hinit.
  destruct (Initialize_routed handlers router Hinit)
    as (pathMap & [Hopt Honce Hact] & Hdom).
  split; [|split; [exact Hopt|]].
  - intros p. rewrite Honce.
    destruct (decide (p ∈ pathsOf handlers)) as [Hin|Hout].
    + apply Hdom in Hin as [x ->]. reflexivity.
    + destruct (pathMap !! p) as [x|] eqn:Hp; [|reflexivity].
      exfalso. apply Hout, Hdom. eauto.
  - intros pick req Hm s. subst s. unfold ServeHTTP. rewrite Hm.
    destruct (Router.Lookup router "OPTIONS" (Http.Path req))
      as [[h ps]|] eqn:Hl.
    + apply Lookup_Some in Hl as (r & Hin & Hrm & Hrh & _).
      rewrite <- Hrh, (Hopt r Hin Hrm). simpl. split; [reflexivity|].
      intros; reflexivity.
    + simpl. split; [reflexivity|]. intros p Hp [ps Hmatch]. exfalso.
      apply Hdom in Hp as [x Hx]. specialize (Honce p). rewrite Hx in Honce.
      destruct (preflights router p) as [|r l] eqn:Hpre; [discriminate|].
      assert (r ∈ preflights router p) as Hr by (rewrite Hpre; left).
      apply list_elem_of_filter in Hr as [[Hrm Hrp] Hrin].
      pose proof (Lookup_None router "OPTIONS" (Http.Path req) r Hl Hrin Hrm)
        as Hnone.
      rewrite Hrp, Hmatch in Hnone. discriminate.
Qed.


End Serving.

(** ** A trigger with three handlers *)

Lemma demo_Initialize : Initialize demoHandlers = Router.Run (Ok demoRouter).
Proof. vm_compute. reflexivity. Qed.

Lemma C8_witness :
  Initialize demoHandlers = Router.Run (Ok demoRouter) /\
  (forall p, length (preflights demoRouter p)
             = if decide (p ∈ pathsOf demoHandlers) then 1 else 0) /\
  (forall r, r ∈ demoRouter -> Router.method r = "OPTIONS" ->
             Router.handle r = Preflight) /\
  (forall pick req,
     Http.Method req = "OPTIONS" ->
     let s := ServeHTTP allowAll allowPreflight replyFromMap demoRouter pick req in
     calls s = [] /\
     forall p, p ∈ pathsOf demoHandlers ->
               is_Some (Router.matchPath p (Http.Path req)) ->
               resp s = HandlePreflight allowPreflight Http.fresh req).
Proof.
  split; [exact demo_Initialize|].
  exact (C8_one_preflight_per_path allowAll allowPreflight replyFromMap
           demoHandlers demoRouter demo_Initialize).
Defined.

(** Two methods on one path, one preflight responder; and an OPTIONS
    request on that path is answered without a call to a handler. *)
Example one_preflight_for_two_methods :
  length (preflights demoRouter "/users/:id") = 1 /\
  length demoRouter = 5.
Proof. vm_compute. split; reflexivity. Qed.

Example options_is_preflight :
  let s := ServeHTTP allowAll allowPreflight replyFromMap demoRouter ascending
             (request "OPTIONS" "/users/42") in
  calls s = [] /\ Http.status (resp s) = Some 200%Z /\
  Http.written (resp s) = "".
Proof. vm_compute. repeat split. Qed.

(** A handler configured for OPTIONS collides with the preflight responder
    of its path, and the router panics. *)
Example options_handler_panics :
  Initialize [echo "OPTIONS" "/ping"]
  = Router.Panic "a handle is already registered for path '/ping'".
Proof. vm_compute. reflexivity. Qed.


(** The handler configured with the method get is handed GET. *)
Example get_is_handed_GET :
  Method <$> calls (ServeHTTP allowAll allowPreflight replyFromMap demoRouter
                      ascending (request "get" "/users/42"))
  = ["GET"].
Proof. vm_compute. reflexivity. Qed.

(** * Further properties of the trigger *)

(** ** The canonical request *)

Lemma foldl_insert_params (ps : list Router.Param) (m : gmap string string) key :
  foldl (fun m param => <[Router.Key param := Router.Value param]> m) m ps
    !! key
  = match last (filter (fun p => Router.Key p = key) ps) with
    | Some p => Some (Router.Value p)
    | None => m !! key
    end.
Proof.
  revert m. induction ps as [|p ps IH] using rev_ind; intros m; [reflexivity|].
  rewrite foldl_app, filter_app, filter_cons, filter_nil. simpl.
  destruct (decide (Router.Key p = key)) as [<-|Hne].
  - rewrite last_snoc, lookup_insert_eq. reflexivity.
  - rewrite app_nil_r, lookup_insert_ne by exact Hne. apply IH.
Qed.

(** X1: the path parameters of the canonical request bind every key the
    router extracted to its value; when a key comes more than once, the
    last one stands. *)
Theorem X1_path_params_last_wins (method : string) (pick : ranger)
    (r : Http.Request) (ps : list Router.Param) (content : any) (key : string) :
  PathParams (output method pick r ps content) !! key
  = Router.Value <$> last (filter (fun p => Router.Key p = key) ps).
Proof.
  unfold output. simpl. rewrite foldl_insert_params, lookup_empty.
  destruct (last _); reflexivity.
Qed.

(** X2: the headers of the canonical request hold, for every header of the
    request, its values joined by commas, and the query parameters hold,
    for every key of the query string, the values the string gives for it,
    in the order of the string, joined by commas; the order in which the
    maps are ranged over does not matter. *)
Theorem X2_headers_and_query_joined (method : string) (pick : ranger)
    (r : Http.Request) (ps : list Router.Param) (content : any) (key : string) :
  lawful pick ->
  let out := output method pick r ps content in
  Headers out !! key
    = (fun vs => Strings.Join vs ",") <$> (Http.Header r !! key) /\
  QueryParams out !! key
    = match valuesFor key (pairsOf (Http.RawQuery r)) with
      | [] => None
      | vs => Some (Strings.Join vs ",")
      end.
Proof.
  intros Hpick. unfold output. simpl. split.
  - rewrite (rangeAssign_lawful joinValues (Http.Header r)) by apply Hpick.
    rewrite lookup_fmap. reflexivity.
  - rewrite (rangeAssign_lawful joinValues (Http.Query r)) by apply Hpick.
    rewrite lookup_fmap. unfold Http.Query. rewrite ParseQuery_lookup.
    destruct (valuesFor key (pairsOf (Http.RawQuery r))); reflexivity.
Qed.

Lemma X2_witness :
  lawful descending /\
  let out := output "GET" descending queryRequest [] VNil in
  Headers out !! "tag"
    = (fun vs => Strings.Join vs ",") <$> (Http.Header queryRequest !! "tag") /\
  QueryParams out !! "tag"
    = match valuesFor "tag" (pairsOf (Http.RawQuery queryRequest)) with
      | [] => None
      | vs => Some (Strings.Join vs ",")
      end.
Proof.
  split; [exact lawful_descending|].
  exact (X2_headers_and_query_joined "GET" descending queryRequest [] VNil
           "tag" lawful_descending).
Defined.

Example query_values_joined :
  let out := output "GET" descending queryRequest [] VNil in
  QueryParams out !! "tag" = Some "a,b" /\
  Headers out !! "Accept" = Some "text/html,application/json" /\
  QueryParams out !! "none" = None.
Proof. vm_compute. repeat split. Qed.

(** A content type that is neither exact type and does not hold
    multipart/form-data takes the default case. *)
Lemma contentBranch_raw (contentType : string) :
  Strings.Contains contentType multipartType = false ->
  contentType <> formType -> contentType <> jsonRequestType ->
  contentBranch contentType = RawBranch.
Proof.
  intros Hc Hf Hj. unfold contentBranch.
  destruct (String.eqb_spec contentType "application/x-www-form-urlencoded")
    as [E|_]; [contradiction|].
  destruct (String.eqb_spec contentType "application/json")
    as [E|_]; [contradiction|].
  fold multipartType. rewrite Hc. reflexivity.
Qed.

(** ** Content types next to the exact ones *)

Lemma append_inv_nil (s t : string) : s ++ t = s -> t = "".
Proof.
  induction s as [|c s IH]; [intros H; exact H|].
  rewrite append_cons. intros H. injection H as H. exact (IH H).
Qed.

(** X3: the form and JSON branches are taken for the bare content type
    only.  A content type that extends application/json or
    application/x-www-form-urlencoded, by a charset parameter for instance,
    falls to the default case, and the body reaches the handler as a raw
    string, undecoded. *)
Theorem X3_parameterised_type_is_raw (pick : ranger) (r : Http.Request)
    (suffix body : string) :
  suffix <> "" ->
  Http.Get (Http.Header r) "Content-Type" = jsonRequestType ++ suffix \/
  Http.Get (Http.Header r) "Content-Type" = formType ++ suffix ->
  Strings.Contains (Http.Get (Http.Header r) "Content-Type") multipartType = false ->
  Http.Body r = Http.Bytes body ->
  decodeContent pick r = Decoded (VStr body).
Proof.
  intros Hsuffix Hct Hmp Hbody.
  pose proof (contentBranch_raw (Http.Get (Http.Header r) "Content-Type"))
    as Hraw.
  unfold decodeContent. rewrite Hraw; [rewrite Hbody; reflexivity | exact Hmp | |].
  - intros Heq. destruct Hct as [Hct|Hct]; rewrite Hct in Heq.
    + apply (f_equal (String.substring 12 1)) in Heq. cbv in Heq. discriminate.
    + apply append_inv_nil in Heq. contradiction.
  - intros Heq. destruct Hct as [Hct|Hct]; rewrite Hct in Heq.
    + apply append_inv_nil in Heq. contradiction.
    + apply (f_equal (String.substring 12 1)) in Heq. cbv in Heq. discriminate.
Qed.

Lemma X3_witness :
  "; charset=utf-8" <> "" /\
  (Http.Get (Http.Header charsetRequest) "Content-Type"
     = jsonRequestType ++ "; charset=utf-8" \/
   Http.Get (Http.Header charsetRequest) "Content-Type"
     = formType ++ "; charset=utf-8") /\
  Strings.Contains (Http.Get (Http.Header charsetRequest) "Content-Type")
    multipartType = false /\
  Http.Body charsetRequest = Http.Bytes (js "{'x':1}") /\
  decodeContent ascending charsetRequest = Decoded (VStr (js "{'x':1}")).
Proof.
  assert (H1 : "; charset=utf-8" <> "") by discriminate.
  split; [exact H1|]. split; [left; reflexivity|].
  split; [reflexivity|]. split; [reflexivity|].
  exact (X3_parameterised_type_is_raw ascending charsetRequest
           "; charset=utf-8" (js "{'x':1}") H1 (or_introl eq_refl)
           eq_refl eq_refl).
Defined.

(** ** Serving one request *)

Lemma writeReply_header_other reply w key :
  key <> "Content-Type" ->
  Http.header (writeReply reply w) !! key = Http.header w !! key.
Proof.
  intros Hkey. destruct reply as [code data]. unfold writeReply, Http.Encode.
  simpl Data. simpl Code.
  destruct data; cbv beta iota zeta;
    try (match goal with
         | |- context [Json.Marshal ?v] => destruct (Json.Marshal v)
         end; simpl; apply lookup_insert_ne; congruence).
  - destruct (code >? 0)%Z; reflexivity.
  - destruct (Json.Unmarshal s); simpl; apply lookup_insert_ne; congruence.
Qed.

Lemma Error_header_other w msg code key :
  key <> "Content-Type" -> key <> "X-Content-Type-Options" ->
  Http.header (Http.Error w msg code) !! key = Http.header w !! key.
Proof.
  intros H1 H2. unfold Http.Error. simpl.
  rewrite !lookup_insert_ne by congruence. reflexivity.
Qed.

Section Request.

Variable corsActual : list (string * string).
Variable FromMap : gmap string any -> result Reply.


(** X5: when the result of the handler cannot be mapped to a reply, the
    answer is a 400 whose body is the text of the mapping error and a
    newline; the handler has been called once by then. *)
Theorem X5_unmappable_result_is_400 (method : string) (handler : Handler)
    (pick : ranger) (w : Http.ResponseWriter) (r : Http.Request)
    (ps : list Router.Param) (content : any) (results : gmap string any)
    (e : error) :
  unwritten w ->
  decodeContent pick r = Decoded content ->
  Handle handler (output method pick r ps content) = Ok results ->
  FromMap results = Err e ->
  let s := newActionHandler corsActual FromMap method handler pick w r ps in
  Http.status (resp s) = Some 400%Z /\
  Http.written (resp s) = Error e ++ newline /\
  calls s = [output method pick r ps content].
Proof.
  intros Hw Hd Hh Hf s. subst s. unfold newActionHandler.
  rewrite Hd, Hh, Hf. simpl.
  destruct (badRequest_unwritten corsActual w e Hw) as [Hs Hb].
  split; [exact Hs|]. split; [exact Hb | reflexivity].
Qed.

(** X6: the headers [WriteCorsActualRequestHeaders] sets are on every
    response of the action handler, the error replies included: nothing
    written later touches a header other than Content-Type and
    X-Content-Type-Options. *)
Theorem X6_cors_headers_stay (method : string) (handler : Handler)
    (pick : ranger) (w : Http.ResponseWriter) (r : Http.Request)
    (ps : list Router.Param) (key value : string) :
  key <> "Content-Type" -> key <> "X-Content-Type-Options" ->
  Http.header (WriteCorsActualRequestHeaders corsActual w) !! key = Some value ->
  Http.header
    (resp (newActionHandler corsActual FromMap method handler pick w r ps))
    !! key = Some value.
Proof.
  intros H1 H2 Hcors. unfold newActionHandler, badRequest.
  destruct (decodeContent pick r) as [content|e|msg]; cbn [resp].
  - destruct (Handle handler _) as [results|e]; cbn [resp].
    + destruct (FromMap results) as [reply|e]; cbn [resp].
      * rewrite writeReply_header_other by exact H1. exact Hcors.
      * rewrite Error_header_other by assumption. exact Hcors.
    + rewrite Error_header_other by assumption. exact Hcors.
  - rewrite Error_header_other by assumption. exact Hcors.
  - exact Hcors.
Qed.

End Request.

Lemma X5_witness :
  unwritten Http.fresh /\
  decodeContent ascending plainRequest = Decoded (VStr "hi") /\
  Handle badCode (output "GET" ascending plainRequest [] (VStr "hi"))
    = Ok (<["code" := VStr "ok"]> ∅) /\
  replyFromMap (<["code" := VStr "ok"]> ∅)
    = Err (ErrorString "unable to coerce code to int") /\
  let s := newActionHandler allowAll replyFromMap "GET" badCode ascending
             Http.fresh plainRequest [] in
  Http.status (resp s) = Some 400%Z /\
  Http.written (resp s)
    = Error (ErrorString "unable to coerce code to int") ++ newline /\
  calls s = [output "GET" ascending plainRequest [] (VStr "hi")].
Proof.
  split; [exact unwritten_fresh|]. split; [reflexivity|].
  split; [reflexivity|]. split; [reflexivity|].
  exact (X5_unmappable_result_is_400 allowAll replyFromMap "GET" badCode
           ascending Http.fresh plainRequest [] (VStr "hi")
           (<["code" := VStr "ok"]> ∅)
           (ErrorString "unable to coerce code to int")
           unwritten_fresh eq_refl eq_refl eq_refl).
Defined.

Lemma X6_witness :
  "Access-Control-Allow-Origin" <> "Content-Type" /\
  "Access-Control-Allow-Origin" <> "X-Content-Type-Options" /\
  Http.header (WriteCorsActualRequestHeaders allowAll Http.fresh)
    !! "Access-Control-Allow-Origin" = Some "*" /\
  Http.header
    (resp (newActionHandler allowAll replyFromMap "GET" failing ascending
             Http.fresh plainRequest []))
    !! "Access-Control-Allow-Origin" = Some "*".
Proof.
  assert (H1 : "Access-Control-Allow-Origin" <> "Content-Type") by discriminate.
  assert (H2 : "Access-Control-Allow-Origin" <> "X-Content-Type-Options")
    by discriminate.
  split; [exact H1|]. split; [exact H2|]. split; [reflexivity|].
  exact (X6_cors_headers_stay allowAll replyFromMap "GET" failing ascending
           Http.fresh plainRequest [] "Access-Control-Allow-Origin" "*"
           H1 H2 eq_refl).
Defined.

(** ** Bodies that are refused *)

Lemma foldl_parseStep_error pieces acc :
  is_Some (foldl Url.parseStep acc pieces).2
  <-> is_Some acc.2 \/ Exists malformed pieces.
Proof.
  revert acc. induction pieces as [|p pieces IH]; intros acc; simpl.
  - split; [auto|]. intros [H|H]; [exact H | inversion H].
  - rewrite IH, Exists_cons. unfold Url.parseStep, malformed.
    destruct (Url.parsePiece p) as [| |e|k v]; simpl.
    + split; [tauto|]. intros [H|[[H|[e H]]|H]]; try discriminate; tauto.
    + split; [intros _; right; left; left; reflexivity|]. intros _. left. eauto.
    + split; [intros _; right; left; right; eauto|]. intros _. left.
      destruct acc.2; eauto.
    + split; [tauto|]. intros [H|[[H|[e H]]|H]]; try discriminate; tauto.
Qed.

(** X7: a body declared as application/x-www-form-urlencoded is refused
    exactly when one of its pieces between ampersands holds a semicolon or
    a percent sign that does not start an escape; pieces that are well
    formed do not make up for one that is not. *)
Theorem X7_form_refused_iff_malformed_piece (pick : ranger) (r : Http.Request)
    (s : string) :
  lawful pick ->
  Http.Get (Http.Header r) "Content-Type" = formType ->
  Http.Body r = Http.Bytes s ->
  (exists e, decodeContent pick r = Rejected e)
  <-> exists p, p ∈ Url.Split s "&" /\ malformed p.
Proof.
  intros Hpick Hct Hbody.
  assert (Hd : decodeContent pick r = decodeForm pick (Http.Bytes s))
    by (unfold decodeContent; rewrite Hct, Hbody; reflexivity).
  rewrite Hd, <- Exists_exists.
  pose proof (foldl_parseStep_error (Url.Split s "&") (∅, None)) as Herr.
  fold (Url.ParseQuery s) in Herr. simpl in Herr.
  destruct (Url.ParseQuery s) as [m [e|]] eqn:Hq.
  - split.
    + intros _. simpl in Herr.
      destruct (proj1 Herr (ex_intro _ e eq_refl)) as [[x Hx]|H];
        [discriminate | exact H].
    + intros _. exists e. unfold decodeForm. rewrite Hq. reflexivity.
  - rewrite (decodeForm_lawful pick s m Hpick Hq). split.
    + intros [e He]. discriminate.
    + intros Hex. assert (is_Some (@None error)) as [x Hx]; [|discriminate].
      apply Herr. right. exact Hex.
Qed.

Lemma X7_witness :
  lawful ascending /\
  Http.Get (Http.Header (formRequest "a=1&b=%zz")) "Content-Type" = formType /\
  Http.Body (formRequest "a=1&b=%zz") = Http.Bytes "a=1&b=%zz" /\
  ((exists e, decodeContent ascending (formRequest "a=1&b=%zz") = Rejected e)
   <-> exists p, p ∈ Url.Split "a=1&b=%zz" "&" /\ malformed p).
Proof.
  split; [exact lawful_ascending|]. split; [reflexivity|]. split; [reflexivity|].
  exact (X7_form_refused_iff_malformed_piece ascending (formRequest "a=1&b=%zz")
           "a=1&b=%zz" lawful_ascending eq_refl eq_refl).
Defined.

Example bad_escape_is_refused :
  decodeContent ascending (formRequest "a=1&b=%zz")
  = Rejected (EscapeError "%zz").
Proof. vm_compute. reflexivity. Qed.

(** ** Uploaded files *)

Lemma getFileDetails_Ok key h d :
  getFileDetails key h = Ok d -> readable h.
Proof.
  unfold getFileDetails, readable. destruct (Http.Data h) as [b|e]; [eauto|].
  discriminate.
Qed.

Lemma getFileDetails_Err key h e :
  getFileDetails key h = Err e -> Http.Data h = Err e.
Proof.
  unfold getFileDetails. destruct (Http.Data h) as [b|e']; [discriminate|].
  simpl. congruence.
Qed.

Lemma detailsOf_Ok key fh ds :
  detailsOf key fh = Ok ds <->
  Forall2 (fun h d => getFileDetails key h = Ok d) fh ds.
Proof.
  revert ds. induction fh as [|h fh IH]; intros ds; simpl.
  - split; [intros H; injection H as <-; constructor|].
    intros H. inversion H. reflexivity.
  - destruct (getFileDetails key h) as [d|e] eqn:Hd; simpl.
    + destruct (detailsOf key fh) as [ds'|e] eqn:Hds; simpl.
      * split.
        -- intros H. injection H as <-. constructor; [exact Hd|].
           apply IH. reflexivity.
        -- intros H. inversion H as [|? d' ? ds'' Hd' Hrest]; subst.
           apply IH in Hrest. congruence.
      * split; [discriminate|].
        intros H. inversion H as [|? d' ? ds'' Hd' Hrest]; subst.
        apply IH in Hrest. discriminate.
    + split; [discriminate|].
      intros H. inversion H as [|? d' ? ds'' Hd' Hrest]; subst. congruence.
Qed.

Lemma detailsOf_readable key fh :
  Forall readable fh -> exists ds, detailsOf key fh = Ok ds.
Proof.
  induction 1 as [|h fh [b Hb] _ [ds IH]]; simpl; [eauto|].
  unfold getFileDetails. rewrite Hb. simpl. rewrite IH. simpl. eauto.
Qed.

Lemma detailsOf_Err key fh e :
  detailsOf key fh = Err e -> exists h, h ∈ fh /\ Http.Data h = Err e.
Proof.
  induction fh as [|h fh IH]; simpl; [discriminate|].
  destruct (getFileDetails key h) as [d|e'] eqn:Hd; simpl.
  - destruct (detailsOf key fh) as [ds|e'']; simpl; [discriminate|].
    intros H. injection H as ->. destruct (IH eq_refl) as (h' & Hin & He).
    exists h'. split; [right; exact Hin | exact He].
  - intros H. injection H as ->. exists h.
    split; [left | eapply getFileDetails_Err; exact Hd].
Qed.

Lemma collect_readable entries :
  Forall (fun kv : string * list Http.FileHeader => Forall readable kv.2) entries ->
  exists files, collect entries = Ok files.
Proof.
  induction 1 as [|[key fh] entries Hfh _ [files IH]]; simpl; [eauto|].
  destruct (detailsOf_readable key fh Hfh) as [ds ->]. simpl.
  rewrite IH. simpl. eauto.
Qed.

Lemma collect_Err entries e :
  collect entries = Err e ->
  exists key fh h, (key, fh) ∈ entries /\ h ∈ fh /\ Http.Data h = Err e.
Proof.
  induction entries as [|[key fh] entries IH]; simpl; [discriminate|].
  destruct (detailsOf key fh) as [ds|e'] eqn:Hd; simpl.
  - destruct (collect entries) as [more|e'']; simpl; [discriminate|].
    intros H. injection H as ->.
    destruct (IH eq_refl) as (k' & fh' & h & Hin & Hh & He).
    exists k', fh', h. split; [right; exact Hin | auto].
  - intros H. injection H as ->.
    destruct (detailsOf_Err key fh e Hd) as (h & Hin & He).
    exists key, fh, h. split; [left | auto].
Qed.

(** The files under a key come out next to one another, in the order of
    the form. *)
Lemma collect_block entries files key fh :
  collect entries = Ok files -> (key, fh) ∈ entries ->
  exists before ds after,
    files = (before ++ ds ++ after)%list /\ detailsOf key fh = Ok ds.
Proof.
  revert files. induction entries as [|[k f] entries IH]; intros files Hc Hin;
    [inversion Hin|].
  simpl in Hc. destruct (detailsOf k f) as [ds|e] eqn:Hd; [|discriminate].
  simpl in Hc. destruct (collect entries) as [more|e] eqn:Hm; [|discriminate].
  simpl in Hc. injection Hc as <-.
  apply elem_of_cons in Hin as [Heq|Hin].
  - injection Heq as -> ->. exists [], ds, more. split; [reflexivity | exact Hd].
  - destruct (IH more eq_refl Hin) as (before & ds' & after & -> & Hd').
    exists (ds ++ before)%list, ds', after.
    split; [rewrite <- app_assoc; reflexivity | exact Hd'].
Qed.

Lemma detailsOf_length key fh ds :
  detailsOf key fh = Ok ds -> length ds = length fh.
Proof.
  intros H. apply detailsOf_Ok, Forall2_length in H. symmetry. exact H.
Qed.

Lemma collect_length entries files :
  collect entries = Ok files ->
  length files
  = sum_list_with (fun kv : string * list Http.FileHeader => length kv.2) entries.
Proof.
  revert files. induction entries as [|[k f] entries IH]; intros files Hc;
    simpl in Hc.
  - injection Hc as <-. reflexivity.
  - destruct (detailsOf k f) as [ds|e] eqn:Hd; [|discriminate].
    simpl in Hc. destruct (collect entries) as [more|e] eqn:Hm; [|discriminate].
    simpl in Hc. injection Hc as <-. rewrite length_app. simpl.
    rewrite (detailsOf_length k f ds Hd), (IH more eq_refl). reflexivity.
Qed.

Lemma decodeMultipart_collect pick form :
  decodeMultipart pick (Ok form)
  = match collect (pick _ (Http.File form)) with
    | Ok files => Decoded (multipartContent files)
    | Err e => Rejected e
    end.
Proof.
  unfold decodeMultipart. rewrite rangeFiles_collect.
  destruct (collect _); reflexivity.
Qed.

(** X8: a multipart request whose form was parsed is decoded exactly when
    every file of the form can be opened and read; when it is refused, the
    error answered is the one met on one of the files. *)
Theorem X8_multipart_decoded_iff_files_readable (pick : ranger)
    (r : Http.Request) (form : Http.Form) :
  lawful pick ->
  contentBranch (Http.Get (Http.Header r) "Content-Type") = MultipartBranch ->
  Http.MultipartForm r = Ok form ->
  ((exists files, decodeContent pick r = Decoded (multipartContent files))
   <-> forall key fh h,
         Http.File form !! key = Some fh -> h ∈ fh -> readable h) /\
  (forall e, decodeContent pick r = Rejected e ->
     exists key fh h,
       Http.File form !! key = Some fh /\ h ∈ fh /\ Http.Data h = Err e).
Proof.
  intros Hpick Hb Hform. unfold decodeContent.
  rewrite Hb, Hform, decodeMultipart_collect.
  assert (Hin : forall key fh,
            (key, fh) ∈ pick _ (Http.File form)
            <-> Http.File form !! key = Some fh).
  { intros key fh. rewrite (Hpick _ (Http.File form)).
    apply elem_of_map_to_list. }
  split; [split|].
  - intros [files Hd] key fh h Hk Hh.
    destruct (collect (pick _ (Http.File form))) as [all|e] eqn:Hc;
      [|discriminate].
    apply Hin in Hk.
    destruct (collect_block _ all key fh Hc Hk) as (b & ds & a & _ & Hds).
    apply detailsOf_Ok in Hds.
    apply list_elem_of_lookup in Hh as [i Hi].
    destruct (Forall2_lookup_l _ _ _ _ _ Hds Hi) as (d & _ & Hd').
    eapply getFileDetails_Ok, Hd'.
  - intros Hall.
    destruct (collect_readable (pick _ (Http.File form))) as [files ->];
      [|eauto].
    apply Forall_forall. intros [key fh] Hk. apply Forall_forall.
    intros h Hh. apply Hin in Hk. exact (Hall key fh h Hk Hh).
  - intros e He.
    destruct (collect (pick _ (Http.File form))) as [all|e'] eqn:Hc;
      [discriminate|].
    injection He as ->.
    destruct (collect_Err _ e Hc) as (key & fh & h & Hk & Hh & Hdata).
    exists key, fh, h. split; [apply Hin, Hk | auto].
Qed.

(** X9: when a multipart request is decoded, there is one entry of file
    details for every file of the form, and the files that came under one
    field key stand next to one another, in the order they have in the
    form. *)
Theorem X9_files_counted_and_grouped (pick : ranger) (r : Http.Request)
    (form : Http.Form) (files : list any) :
  lawful pick ->
  contentBranch (Http.Get (Http.Header r) "Content-Type") = MultipartBranch ->
  Http.MultipartForm r = Ok form ->
  decodeContent pick r = Decoded (multipartContent files) ->
  length files
    = sum_list_with (fun kv : string * list Http.FileHeader => length kv.2)
        (map_to_list (Http.File form)) /\
  forall key fh,
    Http.File form !! key = Some fh ->
    exists before ds after,
      files = (before ++ ds ++ after)%list /\
      Forall2 (fun h d => getFileDetails key h = Ok d) fh ds.
Proof.
  intros Hpick Hb Hform. unfold decodeContent.
  rewrite Hb, Hform, decodeMultipart_collect.
  destruct (collect (pick _ (Http.File form))) as [all|e] eqn:Hc;
    [|discriminate].
  intros Hd. apply (f_equal filesOf) in Hd.
  rewrite !filesOf_multipartContent in Hd. injection Hd as ->.
  split.
  - rewrite (collect_length _ files Hc).
    apply sum_list_with_Permutation_proper, Hpick.
  - intros key fh Hk.
    assert ((key, fh) ∈ pick _ (Http.File form)) as Hin
      by (rewrite (Hpick _ (Http.File form)); apply elem_of_map_to_list, Hk).
    destruct (collect_block _ files key fh Hc Hin) as (b & ds & a & -> & Hds).
    exists b, ds, a. split; [reflexivity | apply detailsOf_Ok, Hds].
Qed.

Lemma X8_witness :
  lawful descending /\
  contentBranch (Http.Get (Http.Header uploadRequest) "Content-Type")
    = MultipartBranch /\
  Http.MultipartForm uploadRequest = Ok uploadForm /\
  ((exists files,
      decodeContent descending uploadRequest = Decoded (multipartContent files))
   <-> forall key fh h,
         Http.File uploadForm !! key = Some fh -> h ∈ fh -> readable h) /\
  (forall e, decodeContent descending uploadRequest = Rejected e ->
     exists key fh h,
       Http.File uploadForm !! key = Some fh /\ h ∈ fh /\ Http.Data h = Err e).
Proof.
  split; [exact lawful_descending|]. split; [reflexivity|]. split; [reflexivity|].
  exact (X8_multipart_decoded_iff_files_readable descending uploadRequest
           uploadForm lawful_descending eq_refl eq_refl).
Defined.

Lemma X9_witness :
  lawful descending /\
  contentBranch (Http.Get (Http.Header uploadRequest) "Content-Type")
    = MultipartBranch /\
  Http.MultipartForm uploadRequest = Ok uploadForm /\
  decodeContent descending uploadRequest
    = Decoded (multipartContent [detailsB; detailsA]) /\
  length [detailsB; detailsA]
    = sum_list_with (fun kv : string * list Http.FileHeader => length kv.2)
        (map_to_list (Http.File uploadForm)) /\
  forall key fh,
    Http.File uploadForm !! key = Some fh ->
    exists before ds after,
      [detailsB; detailsA] = (before ++ ds ++ after)%list /\
      Forall2 (fun h d => getFileDetails key h = Ok d) fh ds.
Proof.
  assert (Hd : decodeContent descending uploadRequest
               = Decoded (multipartContent [detailsB; detailsA]))
    by (vm_compute; reflexivity).
  split; [exact lawful_descending|]. split; [reflexivity|]. split; [reflexivity|].
  split; [exact Hd|].
  exact (X9_files_counted_and_grouped descending uploadRequest uploadForm
           [detailsB; detailsA] lawful_descending eq_refl eq_refl Hd).
Defined.

(** ** JSON bodies with something after the value *)

Lemma run_app st s t v rest :
  Json.run st s = Json.Finished v rest ->
  Json.run st (s ++ t) = Json.Finished v (rest ++ t).
Proof.
  revert st. induction s as [|c s IH]; intros st; [simpl; discriminate|].
  rewrite append_cons. simpl.
  destruct (Json.step st c) as [st'|v' consumed|msg]; [apply IH | |discriminate].
  intros H. injection H as <- <-. destruct consumed; reflexivity.
Qed.

Lemma eof_number st v : Json.eof st = Some v -> exists lit, v = VFloat lit.
Proof.
  destruct st as [[| | | | | | | raw nst |] stack]; simpl; try discriminate.
  destruct nst, stack; try discriminate; intros H; injection H as <-; eauto.
Qed.

(** X10: the JSON branch reads one value and leaves the rest of the body
    unread.  A body that starts with a complete JSON value other than a
    bare number is decoded to that value whatever follows it, text that is
    not JSON included. *)
Theorem X10_json_body_tail_ignored (pick : ranger) (r : Http.Request)
    (s t : string) (v : any) :
  Http.Get (Http.Header r) "Content-Type" = jsonRequestType ->
  Http.Body r = Http.Bytes (s ++ t) ->
  Json.Unmarshal s = Ok v ->
  (forall lit, v <> VFloat lit) ->
  decodeContent pick r = Decoded v.
Proof.
  intros Hct Hbody Hv Hnum. unfold decodeContent. rewrite Hct, Hbody. simpl.
  unfold Json.Decode. unfold Json.Unmarshal in Hv.
  destruct (Json.run Json.init s) as [v' rest|msg|st] eqn:Hrun.
  - destruct (Json.allSpace rest); [|discriminate]. injection Hv as ->.
    rewrite (run_app _ _ t _ _ Hrun). reflexivity.
  - discriminate.
  - destruct (Json.eof st) as [v'|] eqn:He; [|discriminate].
    injection Hv as ->. destruct (eof_number st v He) as [lit ->].
    exfalso. exact (Hnum lit eq_refl).
Qed.

Lemma X10_witness :
  Http.Get (Http.Header (jsonRequest (js "{'x':true}" ++ "!! not json")))
    "Content-Type" = jsonRequestType /\
  Http.Body (jsonRequest (js "{'x':true}" ++ "!! not json"))
    = Http.Bytes (js "{'x':true}" ++ "!! not json") /\
  Json.Unmarshal (js "{'x':true}") = Ok (VMap (<["x" := VBool true]> ∅)) /\
  (forall lit, VMap (<["x" := VBool true]> ∅) <> VFloat lit) /\
  decodeContent ascending (jsonRequest (js "{'x':true}" ++ "!! not json"))
    = Decoded (VMap (<["x" := VBool true]> ∅)).
Proof.
  assert (Hu : Json.Unmarshal (js "{'x':true}") = Ok (VMap (<["x" := VBool true]> ∅)))
    by (vm_compute; reflexivity).
  assert (Hn : forall lit, VMap (<["x" := VBool true]> ∅) <> VFloat lit)
    by (intros lit; discriminate).
  split; [reflexivity|]. split; [reflexivity|]. split; [exact Hu|].
  split; [exact Hn|].
  exact (X10_json_body_tail_ignored ascending
           (jsonRequest (js "{'x':true}" ++ "!! not json"))
           (js "{'x':true}") "!! not json" _ eq_refl eq_refl Hu Hn).
Defined.

(** ** Replies with a negative code *)



(** ** What [Initialize] builds *)

Lemma Handle_Run_slash (router router' : list (Router.Route handle)) m p h :
  Router.Handle m p h router = Router.Run router' ->
  Strings.HasPrefix p "/" = true.
Proof.
  unfold Router.Handle. destruct (Strings.HasPrefix p "/"); [reflexivity|].
  discriminate.
Qed.

(** With its preflight responder in place, a path takes no handler for
    OPTIONS: the router would panic. *)
Lemma Handle_not_OPTIONS all pathMap router router' m p h :
  routed all pathMap router ->
  is_Some (pathMap !! p) ->
  Router.Handle m p h router = Router.Run router' ->
  m <> "OPTIONS".
Proof.
  intros Hr [x Hx] Hrun Hm. apply Handle_Run in Hrun as [_ Hreg].
  assert (Router.registered router m p = true) as Hyes; [|congruence].
  apply registered_true. pose proof (routed_once _ _ _ Hr p) as Honce.
  rewrite Hx in Honce.
  destruct (preflights router p) as [|r l] eqn:Hpre; [discriminate|].
  assert (r ∈ preflights router p) as Hin by (rewrite Hpre; left).
  apply list_elem_of_filter in Hin as [[Hrm Hrp] Hrin].
  exists r. split; [exact Hrin | split; congruence].
Qed.

Lemma length_options_actions (router : list (Router.Route handle)) :
  length router
  = length (filter isOptions router) + length (filter isAction router).
Proof.
  induction router as [|r router IH]; [reflexivity|].
  rewrite !filter_cons. destruct (decide (isOptions r)) as [Hp|Hp].
  - destruct (decide (isAction r)) as [Hn|_]; [contradiction|]. simpl. lia.
  - destruct (decide (isAction r)) as [_|Hn]; [|contradiction]. simpl. lia.
Qed.

Lemma register_shape all handlers pathMap router router' :
  (forall h, h ∈ handlers -> h ∈ all) ->
  routed all pathMap router ->
  register handlers pathMap router = Router.Run (Ok router') ->
  Forall wellConfigured handlers /\
  NoDup (pairsOfSettings handlers) /\
  (forall r, r ∈ router ->
             (Router.method r, Router.pattern r) ∉ pairsOfSettings handlers) /\
  filter isAction router'
    = (filter isAction router ++ omap actionRoute handlers)%list /\
  exists pathMap' : gmap string string,
    (forall p, is_Some (pathMap' !! p)
               <-> is_Some (pathMap !! p) \/ p ∈ pathsOf handlers) /\
    length (filter isOptions router') + size pathMap
      = length (filter isOptions router) + size pathMap'.
Proof.
  revert pathMap router.
  induction handlers as [|handler handlers IH]; intros pathMap router Hall Hr Hreg.
  - simpl in Hreg. injection Hreg as <-.
    split; [constructor|]. split; [constructor|].
    split; [intros r _ H; inversion H|]. split; [simpl; rewrite app_nil_r; reflexivity|].
    exists pathMap. split; [|reflexivity].
    intros p. split; [auto|]. intros [H|H]; [exact H | inversion H].
  - simpl in Hreg. destruct (Settings handler) as [s|e] eqn:Hs; [|discriminate].
    assert (Hin : handler ∈ all) by (apply Hall; left).
    assert (Hrest : forall h, h ∈ handlers -> h ∈ all)
      by (intros h Hh; apply Hall; right; exact Hh).
    assert (Hpairs : pairsOfSettings (handler :: handlers)
                     = (HandlerSettings.Method s, HandlerSettings.Path s)
                       :: pairsOfSettings handlers)
      by (unfold pairsOfSettings; simpl; rewrite Hs; reflexivity).
    assert (Hpaths : forall p, p ∈ pathsOf (handler :: handlers)
                               <-> p = HandlerSettings.Path s \/ p ∈ pathsOf handlers).
    { intros p. unfold pathsOf. simpl. rewrite Hs. simpl.
      rewrite elem_of_cons. reflexivity. }
    assert (Hroutes : omap actionRoute (handler :: handlers)
                      = {| Router.method := HandlerSettings.Method s;
                           Router.pattern := HandlerSettings.Path s;
                           Router.handle :=
                             Action (Strings.ToUpper (HandlerSettings.Method s))
                                    handler |} :: omap actionRoute handlers)
      by (simpl; unfold actionRoute at 1; rewrite Hs; reflexivity).
    (* the state after the preflight responder *)
    assert (exists (pathMap0 : gmap string string) router0,
              match pathMap !! HandlerSettings.Path s with
              | None =>
                  match Router.OPTIONS (HandlerSettings.Path s) Preflight router with
                  | Router.Run router' =>
                      Router.Run (<[HandlerSettings.Path s :=
                                      HandlerSettings.Path s]> pathMap, router')
                  | Router.Panic msg => Router.Panic msg
                  end
              | Some _ => Router.Run (pathMap, router)
              end = Router.Run (pathMap0, router0) /\
              routed all pathMap0 router0 /\
              is_Some (pathMap0 !! HandlerSettings.Path s) /\
              (forall r, r ∈ router -> r ∈ router0) /\
              filter isAction router0 = filter isAction router /\
              (forall p, is_Some (pathMap0 !! p)
                         <-> is_Some (pathMap !! p) \/ p = HandlerSettings.Path s) /\
              length (filter isOptions router0) + size pathMap
                = length (filter isOptions router) + size pathMap0)
      as (pathMap0 & router0 & Hpre & Hr0 & Hsome & Hsub & Hact0 & Hdom0 & Hcount0).
    { destruct (pathMap !! HandlerSettings.Path s) as [x|] eqn:Hpm.
      - exists pathMap, router.
        split; [reflexivity|]. split; [exact Hr|]. split; [eauto|].
        split; [auto|]. split; [reflexivity|]. split; [|reflexivity].
        intros p. split; [auto|]. intros [H|Hp]; [exact H|].
        subst p. rewrite Hpm. eauto.
      - destruct (Router.OPTIONS _ Preflight router) as [router0|msg] eqn:Ho;
          [|discriminate].
        exists (<[HandlerSettings.Path s := HandlerSettings.Path s]> pathMap), router0.
        split; [reflexivity|].
        split; [eapply routed_preflight; eauto|].
        split; [rewrite lookup_insert_eq; eauto|].
        apply Handle_Run in Ho as [-> _].
        split; [intros r Hrin; apply elem_of_app; left; exact Hrin|].
        split.
        { rewrite filter_app, filter_cons, filter_nil.
          destruct (decide (isAction _)) as [Hn|_];
            [exfalso; apply Hn; reflexivity|].
          rewrite app_nil_r. reflexivity. }
        split.
        { intros p. destruct (decide (HandlerSettings.Path s = p)) as [<-|Hne].
          - rewrite lookup_insert_eq. split; [auto | eauto].
          - rewrite lookup_insert_ne by exact Hne. split; [auto|].
            intros [H|Hp]; [exact H | congruence]. }
        rewrite filter_app, filter_cons, filter_nil, length_app.
        destruct (decide (isOptions _)) as [_|Hn];
          [|exfalso; apply Hn; reflexivity].
        rewrite map_size_insert_None by exact Hpm. simpl. lia. }
    rewrite Hpre in Hreg.
    destruct (Router.Handle _ _ _ router0) as [router1|msg] eqn:Hh; [|discriminate].
    assert (Hslash := Handle_Run_slash _ _ _ _ _ Hh).
    assert (Hmethod := Handle_not_OPTIONS _ _ _ _ _ _ _ Hr0 Hsome Hh).
    assert (Hr1 : routed all pathMap0 router1)
      by (eapply routed_action_handler; eauto).
    destruct (Handle_Run _ _ _ _ _ Hh) as [Hrouter1 Hreg0].
    destruct (IH pathMap0 router1 Hrest Hr1 Hreg)
      as (Hwell & Hnodup & Hfresh & Hact & pathMap' & Hdom & Hcount).
    assert (Hnew : (HandlerSettings.Method s, HandlerSettings.Path s)
                   ∉ pairsOfSettings handlers).
    { apply (Hfresh {| Router.method := HandlerSettings.Method s;
                       Router.pattern := HandlerSettings.Path s;
                       Router.handle :=
                         Action (Strings.ToUpper (HandlerSettings.Method s))
                                handler |}).
      rewrite Hrouter1. apply elem_of_app. right. left. }
    split; [constructor; [exists s; auto | exact Hwell]|].
    split; [rewrite Hpairs; constructor; assumption|].
    split.
    { intros r Hrin. rewrite Hpairs. intros Hmem.
      apply elem_of_cons in Hmem as [Heq|Hmem].
      - injection Heq as Hm Hp.
        assert (Router.registered router0 (HandlerSettings.Method s)
                  (HandlerSettings.Path s) = true) as Hyes; [|congruence].
        apply registered_true. exists r. auto.
      - apply (Hfresh r); [|exact Hmem].
        rewrite Hrouter1. apply elem_of_app. left. apply Hsub, Hrin. }
    split.
    { rewrite Hact, Hrouter1, filter_app, filter_cons, filter_nil, Hact0, Hroutes.
      destruct (decide (isAction _)) as [_|Hn]; [|exfalso; apply Hn, Hmethod].
      rewrite <- app_assoc. reflexivity. }
    exists pathMap'. split.
    { intros p. rewrite Hdom, Hdom0, Hpaths. tauto. }
    rewrite Hrouter1, filter_app, filter_cons, filter_nil in Hcount.
    destruct (decide (isOptions _)) as [Ho|_]; [contradiction|].
    rewrite app_nil_r in Hcount. lia.
Qed.


(** X13: the router [Initialize] returns holds, besides the preflight
    responders, one route for every handler, in the order of the handlers,
    under the method and path of its settings as they are written; and as
    many preflight responders as the handlers have distinct paths. *)
Theorem X13_routes_of_the_router (handlers : list Handler)
    (router : list (Router.Route handle)) :
  Initialize handlers = Router.Run (Ok router) ->
  filter isAction router = omap actionRoute handlers /\
  length (omap actionRoute handlers) = length handlers /\
  length router
    = length handlers + size (list_to_set (pathsOf handlers) : gset string).
Proof.
  intros Hinit.
  destruct (register_shape handlers handlers ∅ [] router (fun h H => H)
              (routed_empty handlers) Hinit)
    as (Hwell & _ & _ & Hact & pathMap' & Hdom & Hcount).
  simpl in Hact, Hcount. rewrite map_size_empty in Hcount.
  assert (Hlen : length (omap actionRoute handlers) = length handlers).
  { clear -Hwell. induction Hwell as [|h hs (s & Hs & _) _ IH]; [reflexivity|].
    simpl. unfold actionRoute at 1. rewrite Hs. simpl. f_equal. exact IH. }
  split; [exact Hact|]. split; [exact Hlen|].
  rewrite (length_options_actions router), Hact, Hlen.
  assert (Hsize : size pathMap' = size (list_to_set (pathsOf handlers) : gset string)).
  { rewrite <- size_dom. f_equal. apply set_eq. intros p.
    rewrite elem_of_dom, Hdom, lookup_empty, elem_of_list_to_set.
    split; [|auto]. intros [[x Hx]|H]; [discriminate | exact H]. }
  lia.
Qed.



Lemma X13_witness :
  Initialize demoHandlers = Router.Run (Ok demoRouter) /\
  filter isAction demoRouter = omap actionRoute demoHandlers /\
  length (omap actionRoute demoHandlers) = length demoHandlers /\
  length demoRouter
    = length demoHandlers + size (list_to_set (pathsOf demoHandlers) : gset string).
Proof.
  split; [exact demo_Initialize|].
  exact (X13_routes_of_the_router demoHandlers demoRouter demo_Initialize).
Defined.


(** ** Which handler a request reaches *)

Section Reaching.

Variable corsActual : list (string * string).
Variable corsPreflight : Http.Request -> list (string * string).
Variable FromMap : gmap string any -> result Reply.

Lemma newActionHandler_output method handler pick w r ps out :
  out ∈ calls (newActionHandler corsActual FromMap method handler pick w r ps) ->
  exists content,
    decodeContent pick r = Decoded content /\
    out = output method pick r ps content.
Proof.
  unfold newActionHandler.
  destruct (decodeContent pick r) as [content|e|msg]; simpl;
    [|intros H; inversion H..].
  assert (forall l : list Output, l = [output method pick r ps content] ->
          out ∈ l -> exists c, Decoded content = Decoded c /\
                               out = output method pick r ps c) as Hone.
  { intros l -> H. apply list_elem_of_singleton in H. eauto. }
  destruct (Handle handler _) as [results|e]; [|apply Hone; reflexivity].
  destruct (FromMap results); apply Hone; reflexivity.
Qed.

(** X15: a request reaches a handler only when its method is, byte for
    byte, the method of the settings of the handler (a handler configured
    with get is not reached by GET) and its path matches the pattern of
    the settings; the handler is then given the parameters of that match,
    the upper-cased method and the decoded body. *)
Theorem X15_request_reaches_its_handler (handlers : list Handler)
    (router : list (Router.Route handle)) :
  Initialize handlers = Router.Run (Ok router) ->
  forall pick req out,
    out ∈ calls (ServeHTTP corsActual corsPreflight FromMap router pick req) ->
    exists handler s ps content,
      handler ∈ handlers /\ Settings handler = Ok s /\
      Http.Method req = HandlerSettings.Method s /\
      Router.matchPath (HandlerSettings.Path s) (Http.Path req) = Some ps /\
      decodeContent pick req = Decoded content /\
      out = output (Strings.ToUpper (HandlerSettings.Method s)) pick req ps
              content.
Proof.
  intros Hinit pick req out Hout.
  destruct (Initialize_routed handlers router Hinit)
    as (pathMap & [Hopt Honce Hact] & Hdom).
  unfold ServeHTTP in Hout.
  destruct (Router.Lookup router (Http.Method req) (Http.Path req))
    as [[h ps]|] eqn:Hl; [|inversion Hout].
  apply Lookup_Some in Hl as (r & Hin & Hrm & Hrh & Hmatch).
  destruct h as [|m handler]; simpl in Hout; [inversion Hout|].
  apply newActionHandler_output in Hout as (content & Hd & ->).
  destruct (Hact r m handler Hin Hrh) as (s & Hh & Hs & -> & Hm & Hp).
  exists handler, s, ps, content. rewrite <- Hm, <- Hp. auto 10.
Qed.

End Reaching.

Lemma X15_witness :
  Initialize demoHandlers = Router.Run (Ok demoRouter) /\
  forall pick req out,
    out ∈ calls (ServeHTTP allowAll allowPreflight replyFromMap demoRouter
                   pick req) ->
    exists handler s ps content,
      handler ∈ demoHandlers /\ Settings handler = Ok s /\
      Http.Method req = HandlerSettings.Method s /\
      Router.matchPath (HandlerSettings.Path s) (Http.Path req) = Some ps /\
      decodeContent pick req = Decoded content /\
      out = output (Strings.ToUpper (HandlerSettings.Method s)) pick req ps
              content.
Proof.
  split; [exact demo_Initialize|].
  exact (X15_request_reaches_its_handler allowAll allowPreflight replyFromMap
           demoHandlers demoRouter demo_Initialize).
Defined.

(** The handler configured with get is not reached by a GET request. *)
Example GET_misses_get :
  let s := ServeHTTP allowAll allowPreflight replyFromMap demoRouter ascending
             (request "GET" "/users/42") in
  calls s = [] /\ Http.status (resp s) = Some 404%Z.
Proof. vm_compute. split; reflexivity. Qed.

(** ** Bodies that cannot be read, requests without a content type *)

(** X18: when reading the body fails, the request is refused with the
    read error under every content type but the multipart ones, which do
    not read the body themselves; the handler is not called. *)
Theorem X18_unreadable_body_is_refused (corsActual : list (string * string))
    (FromMap : gmap string any -> result Reply) (method : string)
    (handler : Handler) (pick : ranger) (w : Http.ResponseWriter)
    (r : Http.Request) (ps : list Router.Param) (msg : string) :
  unwritten w ->
  Http.Body r = Http.Broken msg ->
  contentBranch (Http.Get (Http.Header r) "Content-Type") <> MultipartBranch ->
  let s := newActionHandler corsActual FromMap method handler pick w r ps in
  decodeContent pick r = Rejected (ErrorString msg) /\
  Http.status (resp s) = Some 400%Z /\
  Http.written (resp s) = msg ++ newline /\
  calls s = [].
Proof.
  intros Hw Hbody Hb s.
  assert (Hd : decodeContent pick r = Rejected (ErrorString msg)).
  { unfold decodeContent.
    destruct (contentBranch _); [| |contradiction|]; rewrite Hbody; reflexivity. }
  split; [exact Hd|]. subst s. unfold newActionHandler. rewrite Hd. simpl.
  destruct (badRequest_unwritten corsActual w (ErrorString msg) Hw) as [Hs Hbd].
  split; [exact Hs|]. split; [exact Hbd | reflexivity].
Qed.

Lemma X18_witness :
  unwritten Http.fresh /\
  Http.Body brokenRequest = Http.Broken "connection reset by peer" /\
  contentBranch (Http.Get (Http.Header brokenRequest) "Content-Type")
    <> MultipartBranch /\
  let s := newActionHandler allowAll replyFromMap "POST" failing ascending
             Http.fresh brokenRequest [] in
  decodeContent ascending brokenRequest
    = Rejected (ErrorString "connection reset by peer") /\
  Http.status (resp s) = Some 400%Z /\
  Http.written (resp s) = "connection reset by peer" ++ newline /\
  calls s = [].
Proof.
  assert (Hb : contentBranch (Http.Get (Http.Header brokenRequest) "Content-Type")
               <> MultipartBranch) by discriminate.
  split; [exact unwritten_fresh|]. split; [reflexivity|]. split; [exact Hb|].
  exact (X18_unreadable_body_is_refused allowAll replyFromMap "POST" failing
           ascending Http.fresh brokenRequest [] "connection reset by peer"
           unwritten_fresh eq_refl Hb).
Defined.


End Rest.

(** * Properties of the expression functions *)
Module FunctionsFacts.

(** ** Strings cut at a length *)

Lemma length_append (s t : string) :
  String.length (s ++ t) = String.length s + String.length t.
Proof.
  induction s as [|c s IH]; [reflexivity|].
  rewrite Rest.append_cons. simpl. rewrite IH. reflexivity.
Qed.

Lemma substring_whole (t : string) : String.substring 0 (String.length t) t = t.
Proof. induction t as [|c t IH]; [reflexivity|]. simpl. rewrite IH. reflexivity. Qed.

Lemma substring_head (s t : string) :
  String.substring 0 (String.length s) (s ++ t) = s.
Proof.
  induction s as [|c s IH]; [destruct t; reflexivity|].
  rewrite Rest.append_cons. simpl. rewrite IH. reflexivity.
Qed.

Lemma substring_tail (s t : string) :
  String.substring (String.length s) (String.length t) (s ++ t) = t.
Proof.
  induction s as [|c s IH]; [apply substring_whole|].
  rewrite Rest.append_cons. simpl. exact IH.
Qed.

Lemma substring_split (n : nat) (s : string) :
  n <= String.length s ->
  s = String.substring 0 n s ++ String.substring n (String.length s - n) s.
Proof.
  revert s. induction n as [|n IH]; intros s Hn.
  - rewrite Nat.sub_0_r, substring_whole. destruct s; reflexivity.
  - destruct s as [|c s]; simpl in Hn; [lia|].
    simpl. rewrite Rest.append_cons. f_equal. apply IH. lia.
Qed.

Lemma HasSuffix_append (t suffix : string) :
  Functions.HasSuffix (t ++ suffix) suffix = true.
Proof.
  unfold Functions.HasSuffix. rewrite length_append.
  replace (String.length t + String.length suffix - String.length suffix)
    with (String.length t) by lia.
  rewrite substring_tail, String.eqb_refl.
  apply andb_true_intro. split; [apply Nat.leb_le; lia | reflexivity].
Qed.

Lemma HasSuffix_true (s suffix : string) :
  Functions.HasSuffix s suffix = true -> exists t, s = t ++ suffix.
Proof.
  unfold Functions.HasSuffix. intros H. apply andb_prop in H as [Hlen Heq].
  apply Nat.leb_le in Hlen. apply String.eqb_eq in Heq.
  exists (String.substring 0 (String.length s - String.length suffix) s).
  rewrite (substring_split (String.length s - String.length suffix) s) at 1
    by lia.
  replace (String.length s - (String.length s - String.length suffix))
    with (String.length suffix) by lia.
  rewrite Heq. reflexivity.
Qed.

Lemma TrimSuffix_append (t suffix : string) :
  Functions.TrimSuffix (t ++ suffix) suffix = t.
Proof.
  unfold Functions.TrimSuffix. rewrite HasSuffix_append, length_append.
  replace (String.length t + String.length suffix - String.length suffix)
    with (String.length t) by lia.
  apply substring_head.
Qed.

(** X16: [trimSuffix] undoes the appending of the suffix: called with a
    text followed by the suffix, and the suffix, it returns the text, one
    copy of the suffix being removed and no more; a string that does not
    end with the suffix is returned as it is; and the call panics unless
    its first two parameters are strings. *)
Theorem X16_trimSuffix (suffix : string) (rest : list any) :
  (forall t,
     Functions.fnTrimSuffix_Eval (VStr (t ++ suffix) :: VStr suffix :: rest)
     = Router.Run (VStr t)) /\
  (forall s,
     (forall t, s <> t ++ suffix) ->
     Functions.fnTrimSuffix_Eval (VStr s :: VStr suffix :: rest)
     = Router.Run (VStr s)) /\
  (forall params,
     (forall s x more, params <> VStr s :: VStr x :: more) ->
     exists msg, Functions.fnTrimSuffix_Eval params = Router.Panic msg).
Proof.
  split; [|split].
  - intros t. unfold Functions.fnTrimSuffix_Eval. simpl.
    rewrite TrimSuffix_append. reflexivity.
  - intros s Hs. unfold Functions.fnTrimSuffix_Eval. simpl.
    unfold Functions.TrimSuffix.
    destruct (Functions.HasSuffix s suffix) eqn:Hh; [|reflexivity].
    apply HasSuffix_true in Hh as [t Ht]. exfalso. exact (Hs t Ht).
  - intros params Hp. unfold Functions.fnTrimSuffix_Eval, Functions.stringParam.
    destruct params as [|p0 params]; simpl; [eauto|].
    destruct p0; simpl; eauto.
    destruct params as [|p1 params]; simpl; [eauto|].
    destruct p1; simpl; eauto.
    exfalso. eapply Hp. reflexivity.
Qed.

Example trimSuffix_removes_one_copy :
  Functions.fnTrimSuffix_Eval [VStr "a.go.go"; VStr ".go"]
  = Router.Run (VStr "a.go").
Proof. vm_compute. reflexivity. Qed.

(** ** The base64 encoding *)

(** Induction over a string three bytes at a time, as [base64] reads it. *)
Lemma string_ind3 (P : string -> Prop) :
  P "" ->
  (forall a, P (String a "")) ->
  (forall a b, P (String a (String b ""))) ->
  (forall a b c s, P s -> P (String a (String b (String c s)))) ->
  forall s, P s.
Proof.
  intros H0 H1 H2 H3. fix go 1. intros s.
  destruct s as [|a [|b [|c s]]]; [exact H0 | apply H1 | apply H2|].
  apply H3, go.
Qed.

Lemma byte_bound (a : ascii) : (N_of_ascii a < 256)%N.
Proof. apply N_ascii_bounded. Qed.

(** The sixty-four digits of the alphabet, one by one. *)
Lemma b64_digits (k : nat) :
  k < 64 ->
  Functions.b64value (Json.b64digit (N.of_nat k)) = N.of_nat k /\
  Ascii.eqb (Json.b64digit (N.of_nat k)) "=" = false.
Proof.
  intros Hk. do 64 (destruct k as [|k]; [split; reflexivity|]). lia.
Qed.

Lemma b64value_digit (n : N) :
  (n < 64)%N -> Functions.b64value (Json.b64digit n) = n.
Proof.
  intros Hn. rewrite <- (N2Nat.id n). apply b64_digits. lia.
Qed.

Lemma b64digit_not_pad (n : N) :
  (n < 64)%N -> Ascii.eqb (Json.b64digit n) "=" = false.
Proof.
  intros Hn. rewrite <- (N2Nat.id n). apply b64_digits. lia.
Qed.

Ltac digits :=
  zify; Z.to_euclidean_division_equations; lia.

Lemma back (a : ascii) (n : N) : n = N_of_ascii a -> ascii_of_N n = a.
Proof. intros ->. apply ascii_N_embedding. Qed.

(** Decoding what was encoded gives the bytes back. *)
Lemma unbase64_base64 (s : string) : Functions.unbase64 (Json.base64 s) = s.
Proof.
  induction s as [|a|a b|a b c s IH] using string_ind3; [reflexivity| | |].
  - pose proof (byte_bound a). cbn [Json.base64 Functions.unbase64].
    rewrite !b64value_digit by digits.
    change (Ascii.eqb "=" "=") with true. cbv iota.
    f_equal. apply back. digits.
  - pose proof (byte_bound a). pose proof (byte_bound b).
    cbn [Json.base64 Functions.unbase64].
    rewrite !b64value_digit by digits.
    rewrite (b64digit_not_pad (N_of_ascii b mod 16 * 4)) by digits.
    change (Ascii.eqb "=" "=") with true. cbv iota.
    f_equal; [apply back; digits|]. f_equal. apply back. digits.
  - pose proof (byte_bound a). pose proof (byte_bound b).
    pose proof (byte_bound c).
    cbn [Json.base64 Functions.unbase64].
    rewrite !b64value_digit by digits.
    rewrite !b64digit_not_pad by digits. cbv iota.
    rewrite IH.
    f_equal; [apply back; digits|]. f_equal; [apply back; digits|].
    f_equal. apply back. digits.
Qed.

Lemma base64_length (s : string) :
  String.length (Json.base64 s) = 4 * ((String.length s + 2) / 3).
Proof.
  induction s as [|a|a b|a b c s IH] using string_ind3; try reflexivity.
  cbn [Json.base64 String.length]. rewrite IH.
  replace (S (S (S (String.length s))) + 2) with (1 * 3 + (String.length s + 2))
    by lia.
  rewrite Nat.div_add_l by lia. lia.
Qed.

(** X17: [encodeString] never gives two strings the same encoding, and the
    encoding of a string of n bytes is four bytes long for every three
    bytes of the string, the last group filled up: 4 * ceil(n / 3) bytes. *)
Theorem X17_encodeString_injective_and_sized (s1 s2 : string)
    (rest1 rest2 : list any) :
  (Functions.fnEncodeString_Eval (VStr s1 :: rest1)
   = Functions.fnEncodeString_Eval (VStr s2 :: rest2) <-> s1 = s2) /\
  exists e,
    Functions.fnEncodeString_Eval (VStr s1 :: rest1) = Router.Run (VStr e) /\
    String.length e = 4 * ((String.length s1 + 2) / 3) /\
    Functions.unbase64 e = s1.
Proof.
  unfold Functions.fnEncodeString_Eval. simpl. split.
  - split; [|intros ->; reflexivity].
    intros H. injection H as H. apply (f_equal Functions.unbase64) in H.
    rewrite !unbase64_base64 in H. exact H.
  - exists (Json.base64 s1). split; [reflexivity|].
    split; [apply base64_length | apply unbase64_base64].
Qed.

Example encodeString_hello :
  Functions.fnEncodeString_Eval [VStr "hello"] = Router.Run (VStr "aGVsbG8=").
Proof. vm_compute. reflexivity. Qed.

End FunctionsFacts.
